(** * The job lifecycle monitor of openeotest.py ([run_task])

    A shallow embedding of [run_task] and [_save_results] from
    src/openeotest.py.  The remote backend (the openeo connection, the job
    object and its results) and the file system are given by an environment
    [Env]; the wall clock is part of the program state and is advanced by
    every remote call (by a duration the environment chooses) and by every
    [time.sleep].  Python exceptions, [try/except] and the
    [finally: ... return results] of [run_task] are modelled by a small
    state-and-exception monad.  Both [time.time()] and
    [datetime.datetime.now()] read the same clock [clock].  The Python floats
    and datetimes are modelled as rationals [Q]: the poll intervals
    5, 7.5, 11.25, 16.875, 25.3125, 30 are exact binary64 values. *)

From Stdlib Require Import QArith Qminmax String Ascii List Bool Lia Lqa PeanoNat.
Import ListNotations.
Open Scope string_scope.
Open Scope Q_scope.

(** ** Python values and dictionaries *)

(** The values stored in the [results] dictionary. *)
Inductive pyval :=
| PNone
| PStr (s : string)
| PNum (q : Q)
| PHist (h : list (string * Q)).

(** The [results] dict: a finite map from string keys, as an association
    list whose newest binding of a key shadows the older ones (JSON key order
    is irrelevant for the record). *)
Definition dict := list (string * pyval).

Fixpoint dict_get (d : dict) (k : string) : option pyval :=
  match d with
  | [] => None
  | (k', v) :: d' => if String.eqb k' k then Some v else dict_get d' k
  end.

(** [d[k] = v] *)
Definition dict_set (d : dict) (k : string) (v : pyval) : dict := (k, v) :: d.

Definition dict_empty : dict := [].

(** An insertion-ordered Python dict ([status_times]): assigning an existing
    key replaces its value in place, a new key is appended at the end. *)
Fixpoint odict_set (d : list (string * Q)) (k : string) (v : Q)
  : list (string * Q) :=
  match d with
  | [] => [(k, v)]
  | (k', v') :: d' =>
      if String.eqb k k' then (k, v) :: d' else (k', v') :: odict_set d' k v
  end.

Fixpoint odict_get (d : list (string * Q)) (k : string) : option Q :=
  match d with
  | [] => None
  | (k', v') :: d' => if String.eqb k k' then Some v' else odict_get d' k
  end.

Definition odict_mem (d : list (string * Q)) (k : string) : bool :=
  match odict_get d k with Some _ => true | None => false end.

(** [str(v)] as used in the f-strings of [run_task]. *)
Definition pystr (v : option pyval) : string :=
  match v with
  | Some (PStr s) => s
  | _ => "None"
  end.

(** Python's [v == s] for a string [s]. *)
Definition pyeq_str (v : pyval) (s : string) : bool :=
  match v with
  | PStr s' => String.eqb s' s
  | _ => false
  end.

(** Python's [a > b] on numbers. *)
Definition Qgtb (a b : Q) : bool := negb (Qle_bool a b).

(** ** The environment: backend behaviour and file system *)

Record Env := {
  api_url : string;
  copy_ok : bool;                  (** [shutil.copyfile(scenario_path, ...)] *)
  load_ok : bool;                  (** [json.load] of the scenario file *)
  connect_ok : bool;               (** [openeo.connect(api_url)] *)
  basic_auth_ok : bool;            (** [authenticate_basic] (Earth Engine) *)
  oidc_ok : bool;                  (** [authenticate_oidc] *)
  d_connect : Q;                   (** time spent connecting and authenticating *)
  create_job : option string;      (** [create_job(..).job_id]; [None]: raises *)
  d_create : Q;
  start_ok : bool;                 (** [job.start()] *)
  d_start : Q;
  poll : nat -> Q * option string; (** n-th [job.status()]: its duration and
                                       the status returned, [None]: raises *)
  download_ok : bool;              (** [get_results], [get_metadata], [download_files] *)
  d_download : Q
}.

(** The clock never runs backwards: every remote call takes a non-negative
    time. *)
Definition env_wf (e : Env) : Prop :=
  0 <= d_connect e /\ 0 <= d_create e /\ 0 <= d_start e /\
  0 <= d_download e /\ forall n, 0 <= fst (poll e n).

(** ** State, exceptions and the monad *)

Inductive exn := Exn (msg : string).

(** [NoFuel]: the [while True] loop has not finished within the given number
    of iterations; unlike an exception no [except] or [finally] sees it. *)
Inductive outcome (A : Type) :=
| Ok (a : A)
| Raise (e : exn)
| NoFuel.
Arguments Ok {A} a.
Arguments Raise {A} e.
Arguments NoFuel {A}.

Record World := {
  clock : Q;               (** the wall clock *)
  results : dict;          (** the local [results] dict of [run_task] *)
  saved : list dict;       (** every [results.json] written, in order *)
  npoll : nat;             (** number of [job.status()] calls made *)
  sleeps : list Q          (** every [time.sleep] duration, in order *)
}.

Definition M (A : Type) := World -> World * outcome A.

Definition ret {A} (a : A) : M A := fun w => (w, Ok a).

Definition bind {A B} (m : M A) (f : A -> M B) : M B :=
  fun w => match m w with
           | (w', Ok a) => f a w'
           | (w', Raise e) => (w', Raise e)
           | (w', NoFuel) => (w', NoFuel)
           end.

Notation "x <- m ;; k" := (bind m (fun x => k))
  (at level 61, m at next level, right associativity).
Notation "m ;;; k" := (bind m (fun _ => k))
  (at level 61, right associativity).

Definition raise {A} (e : exn) : M A := fun w => (w, Raise e).
Definition nofuel {A} : M A := fun w => (w, NoFuel).

(** [try: m except Exception as e: h e] *)
Definition try_except {A} (m : M A) (h : exn -> M A) : M A :=
  fun w => match m w with
           | (w', Raise e) => h e w'
           | r => r
           end.

(** [try: m ... finally: f; return ...]: the [return] inside [finally]
    discards a pending exception; the value is the one [f] returns. *)
Definition finally_return {A B} (m : M A) (f : M B) : M B :=
  fun w => match m w with
           | (w', NoFuel) => (w', NoFuel)
           | (w', _) => f w'
           end.

Definition set_clock (w : World) (t : Q) : World :=
  {| clock := t; results := results w; saved := saved w;
     npoll := npoll w; sleeps := sleeps w |}.

(** [time.time()] / [datetime.datetime.now()] *)
Definition time_time : M Q := fun w => (w, Ok (clock w)).

(** A remote call taking [d] seconds. *)
Definition elapse (d : Q) : M unit :=
  fun w => (set_clock w (clock w + d), Ok tt).

(** [time.sleep(d)] *)
Definition sleep (d : Q) : M unit :=
  fun w => ({| clock := clock w + d; results := results w; saved := saved w;
               npoll := npoll w; sleeps := (sleeps w ++ [d])%list |}, Ok tt).

(** [results[k] = v] *)
Definition set_res (k : string) (v : pyval) : M unit :=
  fun w => ({| clock := clock w; results := dict_set (results w) k v;
               saved := saved w; npoll := npoll w; sleeps := sleeps w |}, Ok tt).

(** [results[k]] (a [KeyError] when absent) *)
Definition get_res (k : string) : M pyval :=
  fun w => match dict_get (results w) k with
           | Some v => (w, Ok v)
           | None => (w, Raise (Exn "KeyError"))
           end.

Definition get_results : M dict := fun w => (w, Ok (results w)).

(** [_save_results]: [json.dump] of [results] into
    [output_directory/results.json]; its own [try/except] logs any failure,
    so it never raises. *)
Definition save_results : M unit :=
  fun w => ({| clock := clock w; results := results w;
               saved := (saved w ++ [results w])%list;
               npoll := npoll w; sleeps := sleeps w |}, Ok tt).

(** ** The polling loop of [run_task] *)

Definition timeout : Q := 3600.
Definition max_poll_interval : Q := 30.

(** The local variables of the [while True] loop. *)
Record LoopSt := {
  poll_interval : Q;
  last_status : string;
  status_times : list (string * Q);
  check_count : nat
}.

(** [job.status()]: the [npoll]-th poll of the environment. *)
Definition job_status (e : Env) : M string :=
  fun w =>
    let (d, r) := poll e (npoll w) in
    let w' := {| clock := clock w + d; results := results w; saved := saved w;
                 npoll := S (npoll w); sleeps := sleeps w |} in
    match r with
    | Some s => (w', Ok s)
    | None => (w', Raise (Exn "status check failed"))
    end.

Definition is_terminal (s : string) : bool :=
  String.eqb s "finished" || String.eqb s "error" || String.eqb s "canceled".

(** [Done]: the loop executes [break]; [Again]: the next iteration. *)
Inductive step := Done (ls : LoopSt) | Again (ls : LoopSt).

(** The [try] block of one iteration. *)
Definition loop_try (e : Env) (ls : LoopSt) : M step :=
  current_time <- time_time ;;
  current_status <- job_status e ;;
  let cc := S (check_count ls) in
  set_res "job_status" (PStr current_status) ;;;
  let ls1 :=
    if negb (String.eqb current_status (last_status ls))
    then {| poll_interval := poll_interval ls;
            last_status := current_status;
            status_times := odict_set (status_times ls) current_status current_time;
            check_count := cc |}
    else {| poll_interval := poll_interval ls;
            last_status := last_status ls;
            status_times := status_times ls;
            check_count := cc |} in
  if is_terminal current_status then ret (Done ls1)
  else
    let pi := Qmin (poll_interval ls1 * (3#2)) max_poll_interval in
    sleep pi ;;;
    ret (Again {| poll_interval := pi; last_status := last_status ls1;
                  status_times := status_times ls1;
                  check_count := check_count ls1 |}).

(** The [except Exception] handler of one iteration.  [ls] is the state at
    the start of the iteration: [job.status()] is the only call of the [try]
    block that raises, and it comes before every assignment. *)
Definition loop_except (job_start_time : Q) (ls : LoopSt) : M step :=
  t <- time_time ;;
  if Qgtb (t - job_start_time) timeout
  then set_res "error" (PStr "Job status checking failed: status check failed") ;;;
       ret (Done ls)
  else sleep (poll_interval ls) ;;; ret (Again ls).

Fixpoint poll_loop (fuel : nat) (e : Env) (job_start_time : Q) (ls : LoopSt)
  : M LoopSt :=
  match fuel with
  | O => nofuel
  | S fuel' =>
      t <- time_time ;;
      if Qgtb (t - job_start_time) timeout
      then set_res "error" (PStr "Job timed out after 3600 seconds") ;;; ret ls
      else
        r <- try_except (loop_try e ls) (fun _ => loop_except job_start_time ls) ;;
        match r with
        | Done ls' => ret ls'
        | Again ls' => poll_loop fuel' e job_start_time ls'
        end
  end.

Definition loop_init (job_start_datetime : Q) : LoopSt :=
  {| poll_interval := 5; last_status := "submitted";
     status_times := [("submitted", job_start_datetime)]; check_count := 0 |}.

(** ** [run_task] *)

Definition earth_engine_url : string := "https://earthengine.openeo.org/v1.0".

(** The initial [results] dict. *)
Definition init_results (e : Env) (start_time : Q) : dict :=
  fold_left (fun d kv => dict_set d (fst kv) (snd kv))
    [("backend_url", PStr (api_url e)); ("status", PStr "failed");
     ("job_id", PNone); ("job_status", PNone);
     ("start_time", PNum start_time); ("submit_time", PNone);
     ("start_job_time", PNone); ("job_execution_time", PNone);
     ("download_time", PNone); ("total_time", PNone); ("queue_time", PNone);
     ("processing_time", PNone); ("file_path", PNone); ("error", PNone);
     ("job_status_history", PHist []); ("timestamp", PNum start_time)]
    dict_empty.

Definition set_results (d : dict) : M unit :=
  fun w => ({| clock := clock w; results := d; saved := saved w;
               npoll := npoll w; sleeps := sleeps w |}, Ok tt).

Definition fail_if (b : bool) (msg : string) : M unit :=
  if b then ret tt else raise (Exn msg).

(** The [try] block that connects and authenticates; [false] when it
    returned early (after saving the results). *)
Definition connect_phase (e : Env) : M bool :=
  try_except
    (elapse (d_connect e) ;;;
     if String.eqb (api_url e) earth_engine_url
     then fail_if (connect_ok e) "connect failed" ;;;
          fail_if (basic_auth_ok e) "authentication failed" ;;;
          ret true
     else fail_if (connect_ok e) "connect failed" ;;;
          try_except (fail_if (oidc_ok e) "authentication failed" ;;; ret true)
            (fun ex => set_res "error" (PStr "Authentication failed") ;;;
                       save_results ;;; ret false))
    (fun ex => set_res "error" (PStr "Failed to connect to backend") ;;;
               save_results ;;; ret false).

Definition get_num (k : string) : M Q :=
  v <- get_res k ;;
  match v with
  | PNum q => ret q
  | _ => raise (Exn "TypeError")
  end.

(** The main [try] block: submit, start, poll, derive the times, download. *)
Definition job_phase (fuel : nat) (e : Env) : M unit :=
  job_creation_start <- time_time ;;
  elapse (d_create e) ;;;
  match create_job e with
  | None => raise (Exn "create_job failed")
  | Some job_id =>
    set_res "job_id" (PStr job_id) ;;;
    t1 <- time_time ;;
    set_res "submit_time" (PNum (t1 - job_creation_start)) ;;;
    job_start_time <- time_time ;;
    set_res "start_job_time" (PNum job_start_time) ;;;
    job_start_datetime <- time_time ;;
    elapse (d_start e) ;;;
    fail_if (start_ok e) "job start failed" ;;;
    ls <- poll_loop fuel e job_start_time (loop_init job_start_datetime) ;;
    t2 <- time_time ;;
    set_res "job_execution_time" (PNum (t2 - job_start_time)) ;;;
    let st := status_times ls in
    set_res "job_status_history" (PHist st) ;;;
    match odict_get st "queued", odict_get st "running" with
    | Some q, Some r => set_res "queue_time" (PNum (r - q))
    | _, _ => ret tt
    end ;;;
    match odict_get st "running", odict_get st "finished" with
    | Some r, Some f => set_res "processing_time" (PNum (f - r))
    | _, _ => ret tt
    end ;;;
    js <- get_res "job_status" ;;
    if pyeq_str js "finished" then
        download_start <- time_time ;;
        elapse (d_download e) ;;;
        fail_if (download_ok e) "download failed" ;;;
        t3 <- time_time ;;
        set_res "download_time" (PNum (t3 - download_start)) ;;;
        set_res "status" (PStr "success") ;;;
        set_res "download_timestamp" (PNum download_start) ;;;
        set_res "downloads_directory" (PStr "output_directory")
    else
        set_res "status" (PStr "failed") ;;;
        set_res "error" (PStr ("Job ended with status: " ++ pystr (Some js)))
        (* the [describe_job] call is wrapped in its own try/except and only
           adds a "job_details" key *)
  end.

Definition run_task (fuel : nat) (e : Env) : M dict :=
  if negb (copy_ok e) then raise (Exn "copyfile failed") else
  start_time <- time_time ;;
  set_results (init_results e start_time) ;;;
  if negb (load_ok e)
  then set_res "error" (PStr "Failed to load process graph") ;;;
       save_results ;;; get_results
  else
  go <- connect_phase e ;;
  if negb go then get_results else
  finally_return
    (try_except (job_phase fuel e)
       (fun ex => match ex with
                  | Exn msg => set_res "status" (PStr "failed") ;;;
                               set_res "error" (PStr msg)
                  end))
    (st <- get_num "start_time" ;;
     t <- time_time ;;
     set_res "total_time" (PNum (t - st)) ;;;
     t' <- time_time ;;
     set_res "timestamp" (PNum t') ;;;
     save_results ;;;
     get_results).

Definition world0 : World :=
  {| clock := 0; results := dict_empty; saved := []; npoll := 0; sleeps := [] |}.

(** ** Concrete runs *)

(** An environment in which every setup step, the connection and the
    authentication succeed, with the job id "j-1". *)
Definition mk_env (copy load connect oidc : bool) (job : option string)
  (start : bool) (polls : nat -> Q * option string) (download : bool) : Env :=
  {| api_url := "https://openeo.example.org"; copy_ok := copy; load_ok := load;
     connect_ok := connect; basic_auth_ok := true; oidc_ok := oidc;
     d_connect := 1; create_job := job; d_create := 2; start_ok := start;
     d_start := 1; poll := polls; download_ok := download; d_download := 5 |}.

Definition env_with_polls (polls : nat -> Q * option string) : Env :=
  mk_env true true true true (Some "j-1") true polls true.

(** queued, running, running, finished, each poll answered at once. *)
Definition polls_finish (n : nat) : Q * option string :=
  match n with
  | O => (0, Some "queued")
  | S O | S (S O) => (0, Some "running")
  | _ => (0, Some "finished")
  end.

(** queued, running, queued again, finished. *)
Definition polls_reenter (n : nat) : Q * option string :=
  match n with
  | O => (0, Some "queued")
  | S O => (0, Some "running")
  | S (S O) => (0, Some "queued")
  | _ => (0, Some "finished")
  end.

(** A backend that never leaves "queued". *)
Definition polls_queued (_ : nat) : Q * option string := (0, Some "queued").

(** The same backend answering each status request after [d] seconds. *)
Definition polls_slow (d : Q) (_ : nat) : Q * option string := (d, Some "queued").

Definition world_at (t : Q) : World :=
  {| clock := t; results := dict_empty; saved := []; npoll := 0; sleeps := [] |}.

(** Timestamps non-decreasing in list order. *)
Fixpoint ts_nondecreasing (h : list (string * Q)) : bool :=
  match h with
  | (_, t) :: ((_, t') :: _) as h' => Qle_bool t t' && ts_nondecreasing h'
  | _ => true
  end.

(** The authentication step that [run_task] performs for [api_url]. *)
Definition connect_succeeds (e : Env) : bool :=
  connect_ok e &&
  (if String.eqb (api_url e) earth_engine_url then basic_auth_ok e else oidc_ok e).

(** The rule of "queue_time" and "processing_time": the difference of the
    two timestamps of the history when both are present, [None] otherwise. *)
Definition derived_time (h : list (string * Q)) (from to : string) : pyval :=
  match odict_get h from, odict_get h to with
  | Some a, Some b => PNum (b - a)
  | _, _ => PNone
  end.

(** A backend that never answers a terminal status ([job.status()] may
    still raise). *)
Definition never_terminal (e : Env) : Prop :=
  forall n, match snd (poll e n) with
            | Some s => is_terminal s = false
            | None => True
            end.

(** "job_status" of [results] is present and holds no terminal status. *)
Definition js_ok (r : dict) : Prop :=
  match dict_get r "job_status" with
  | Some (PStr s) => is_terminal s = false
  | Some _ => True
  | None => False
  end.

(** ** The other functions of openeotest.py *)

(** *** Python string operations

    On ASCII strings: [str.lower], [str.title], [str.isdigit] and the [\d]
    of [re] are the ASCII cases of Python's Unicode operations. *)

Definition is_digit (c : ascii) : bool :=
  let n := nat_of_ascii c in Nat.leb 48 n && Nat.leb n 57.

Definition is_upper (c : ascii) : bool :=
  let n := nat_of_ascii c in Nat.leb 65 n && Nat.leb n 90.

Definition is_lower (c : ascii) : bool :=
  let n := nat_of_ascii c in Nat.leb 97 n && Nat.leb n 122.

Definition ascii_lower (c : ascii) : ascii :=
  if is_upper c then ascii_of_nat (nat_of_ascii c + 32)%nat else c.

Definition ascii_upper (c : ascii) : ascii :=
  if is_lower c then ascii_of_nat (nat_of_ascii c - 32)%nat else c.

(** [s.lower()] *)
Fixpoint py_lower (s : string) : string :=
  match s with
  | EmptyString => EmptyString
  | String c r => String (ascii_lower c) (py_lower r)
  end.

Fixpoint all_digits (s : string) : bool :=
  match s with
  | EmptyString => true
  | String c r => is_digit c && all_digits r
  end.

(** [s.isdigit()]: false on the empty string. *)
Definition py_isdigit (s : string) : bool :=
  match s with
  | EmptyString => false
  | _ => all_digits s
  end.

(** [s.title()]: a letter is upper-cased after a character that is not a
    letter, lower-cased after a letter. *)
Fixpoint title_from (previous_is_cased : bool) (s : string) : string :=
  match s with
  | EmptyString => EmptyString
  | String c r =>
      let cased := is_upper c || is_lower c in
      String (if cased then (if previous_is_cased then ascii_lower c else ascii_upper c)
              else c)
             (title_from cased r)
  end.

Definition py_title (s : string) : string := title_from false s.

(** [sub in s] *)
Fixpoint py_contains (sub s : string) : bool :=
  String.prefix sub s ||
  match s with
  | EmptyString => false
  | String _ r => py_contains sub r
  end.

(** [s.startswith(p)], [s.endswith(suf)] *)
Definition py_startswith (p s : string) : bool := String.prefix p s.

Definition py_endswith (suf s : string) : bool :=
  let n := String.length s in
  let m := String.length suf in
  Nat.leb m n && String.eqb (substring (n - m)%nat m s) suf.

(** [s.replace(old, new)] for a non-empty [old]: the occurrences of [old]
    from left to right, without overlap.  Each step consumes at least one
    character, so [String.length s + 1] steps suffice. *)
Fixpoint replace_fuel (fuel : nat) (old new s : string) : string :=
  match fuel with
  | O => s
  | S fuel' =>
      match s with
      | EmptyString => EmptyString
      | String c r =>
          if String.prefix old s
          then new ++ replace_fuel fuel' old new
                        (substring (String.length old)
                           (String.length s - String.length old)%nat s)
          else String c (replace_fuel fuel' old new r)
      end
  end.

Definition py_replace (old new s : string) : string :=
  replace_fuel (S (String.length s)) old new s.

(** [s.split(c)] for a one-character separator: [""] on the empty string,
    an empty piece between two adjacent separators. *)
Fixpoint py_split_char (c : ascii) (s : string) : list string :=
  match s with
  | EmptyString => [EmptyString]
  | String x r =>
      let parts := py_split_char c r in
      if Ascii.eqb x c then EmptyString :: parts
      else match parts with
           | p :: ps => String x p :: ps
           | [] => [String x EmptyString]
           end
  end.

(** [sep.join(l)] *)
Fixpoint py_join (sep : string) (l : list string) : string :=
  match l with
  | [] => EmptyString
  | [x] => x
  | x :: r => x ++ sep ++ py_join sep r
  end.

(** [os.path.basename(p)]: what follows the last ["/"]. *)
Fixpoint py_basename (s : string) : string :=
  match s with
  | EmptyString => EmptyString
  | String c r =>
      if py_contains "/" r then py_basename r
      else if Ascii.eqb c "/"%char then r else s
  end.

(** [os.path.join(a, b)] (posixpath) *)
Definition py_path_join (a b : string) : string :=
  if py_startswith "/" b then b
  else if String.eqb a "" || py_endswith "/" a then a ++ b
  else a ++ "/" ++ b.

Definition newline : string := String (ascii_of_nat 10) EmptyString.

(** [re.match(r'^\d{14}$', s)]: [$] also matches before a final newline. *)
Definition re_match_14_digits (s : string) : bool :=
  (Nat.eqb (String.length s) 14 && py_isdigit s) ||
  (Nat.eqb (String.length s) 15 && py_isdigit (substring 0 14 s) &&
   String.eqb (substring 14 1 s) newline).

(** [re.match(r'^\d+$', s)] *)
Definition re_match_digits (s : string) : bool :=
  py_isdigit s ||
  (let n := (String.length s - 1)%nat in
   py_isdigit (substring 0 n s) && String.eqb (substring n 1 s) newline).

(** [x in [...]] on a list of strings *)
Definition str_in (x : string) (l : list string) : bool := existsb (String.eqb x) l.

(** *** The name of the output folder of [run_task]

    [hostname] is [urllib.parse.urlparse(api_url).netloc]. *)

Definition backend_name_of (hostname : string) : string := py_replace "." "_" hostname.

Definition scenario_name_of (scenario_path : string) : string :=
  py_replace ".json" "" (py_basename scenario_path).

(** [f"{backend_name}_{scenario_name}_{timestamp}"] *)
Definition run_folder_name (hostname scenario_path timestamp : string) : string :=
  backend_name_of hostname ++ "_" ++ scenario_name_of scenario_path ++ "_" ++ timestamp.

Definition default_output_directory (hostname scenario_path timestamp : string) : string :=
  py_path_join "output" (run_folder_name hostname scenario_path timestamp).

(** *** Insertion-ordered dicts of lists ([defaultdict(list)] and the
    [if k not in d: d[k] = []; d[k].append(v)] of the summary writers) *)

Fixpoint group_add {A} (g : list (string * list A)) (k : string) (v : A)
  : list (string * list A) :=
  match g with
  | [] => [(k, [v])]
  | (k', l) :: g' =>
      if String.eqb k' k then (k', (l ++ [v])%list) :: g'
      else (k', l) :: group_add g' k v
  end.

(** [d.get(k, [])] *)
Fixpoint group_get {A} (g : list (string * list A)) (k : string) : list A :=
  match g with
  | [] => []
  | (k', l) :: g' => if String.eqb k' k then l else group_get g' k
  end.

(** *** [_extract_backend_from_folder] (local to [summarize_task]) *)

Definition backend_mapping : list (string * string) :=
  [("cdse", "CDSE"); ("vito", "VITO"); ("eodc", "EODC");
   ("earthengine", "Earth Engine"); ("openeo_platform", "openEO Platform");
   ("platform", "openEO Platform")].

Fixpoint assoc_str (l : list (string * string)) (k : string) : option string :=
  match l with
  | [] => None
  | (k', v) :: l' => if String.eqb k' k then Some v else assoc_str l' k
  end.

(** The first index [i] of [parts] from [i0] on whose part satisfies [p]
    ([for i, part in enumerate(parts): if ...: break]). *)
Fixpoint find_index (p : string -> bool) (parts : list string) (i0 : nat) : option nat :=
  match parts with
  | [] => None
  | x :: r => if p x then Some i0 else find_index p r (S i0)
  end.

Definition is_timestamp_part (part : string) : bool :=
  Nat.eqb (String.length part) 14 && py_isdigit part.

(** [backend_mapping.get(backend_part.lower(), backend_part.title())] *)
Definition backend_label (backend_part : string) : string :=
  match assoc_str backend_mapping (py_lower backend_part) with
  | Some v => v
  | None => py_title backend_part
  end.

Definition extract_backend_from_folder (folder_name : string) : string :=
  let parts := py_split_char "_"%char folder_name in
  match find_index is_timestamp_part parts 0 with
  | Some (S i) => backend_label (nth i parts "")
  | _ =>
      let l := py_lower folder_name in
      if py_contains "vito" l then "VITO"
      else if py_contains "eodc" l then "EODC"
      else if py_contains "dataspace" l || py_contains "copernicus" l then "CDSE"
      else if py_contains "earthengine" l then "Earth Engine"
      else if py_contains "openeo" l then "openEO Platform"
      else "Unknown"
  end.

(** *** [group_folders_by_platform] *)

Record folder_info := {
  fi_path : string; fi_name : string; fi_scenario : string; fi_platform : string
}.

(** [for i in range(n - 1, -1, -1): if re.match(...): break], started with
    [n = len(parts)]. *)
Fixpoint search_down (parts : list string) (n : nat) : option nat :=
  match n with
  | O => None
  | S i => if re_match_14_digits (nth i parts "") then Some i else search_down parts i
  end.

Definition backend_url_parts : list string :=
  ["earthengine"; "openeo"; "openeocloud"; "dataspace"; "copernicus"; "eu"; "org";
   "vito"; "be"].

Definition scenario_start (part : string) : bool :=
  existsb (fun p => py_startswith p part) ["ndvi"; "reducer"; "vienna"; "bratislava"] ||
  existsb (fun p => py_endswith p part) ["km"; "median"; "mean"] ||
  re_match_digits part || str_in part ["10km"; "2024"; "2020"; "2018"].

(** The [for i, part in enumerate(scenario_with_backend)] loop: the parts
    from the first scenario-like part after a backend part on, or [[]]. *)
Fixpoint scenario_scan (swb rest : list string) (i : nat) (skip_backend : bool)
  : list string :=
  match rest with
  | [] => []
  | part :: r =>
      if str_in part backend_url_parts && Nat.ltb i 4
      then scenario_scan swb r (S i) true
      else if skip_backend && scenario_start part then skipn i swb
      else scenario_scan swb r (S i) skip_backend
  end.

Definition folder_info_of (folder_path : string) : folder_info :=
  let folder_name := py_basename folder_path in
  let parts := py_split_char "_"%char folder_name in
  let n := List.length parts in
  if Nat.leb 3 n then
    match search_down parts n with
    | Some ts_idx =>
        if Nat.ltb 1 ts_idx then
          let '(platform_parts, platform_start_idx) :=
            if Nat.leb 2 ts_idx && String.eqb (nth (ts_idx - 2)%nat parts "") "openeo" &&
               String.eqb (nth (ts_idx - 1)%nat parts "") "platform"
            then (["openeo"; "platform"], ts_idx - 2)%nat
            else if str_in (nth (ts_idx - 1)%nat parts "")
                      ["earthengine"; "cdse"; "vito"; "eodc"; "platform"]
            then ([nth (ts_idx - 1)%nat parts ""], ts_idx - 1)%nat
            else ([nth (ts_idx - 1)%nat parts ""], ts_idx - 1)%nat in
          let platform := py_join "_" platform_parts in
          let swb := firstn platform_start_idx parts in
          let sp := scenario_scan swb swb 0 false in
          let scenario_parts :=
            match sp with
            | [] => if Nat.ltb 3 (List.length swb) then skipn 3 swb else swb
            | _ => sp
            end in
          {| fi_path := folder_path; fi_name := folder_name;
             fi_scenario := py_join "_" scenario_parts; fi_platform := platform |}
        else
          {| fi_path := folder_path; fi_name := folder_name;
             fi_scenario := py_join "_" (firstn (n - 2)%nat parts);
             fi_platform := nth (n - 2)%nat parts "" |}
    | None =>
        {| fi_path := folder_path; fi_name := folder_name;
           fi_scenario := py_join "_" (firstn (n - 2)%nat parts);
           fi_platform := nth (n - 2)%nat parts "" |}
    end
  else
    {| fi_path := folder_path; fi_name := folder_name;
       fi_scenario := folder_name; fi_platform := folder_name |}.

Definition group_folders_by_platform (folders : list string)
  : list (string * list folder_info) :=
  fold_left (fun g p => let fi := folder_info_of p in group_add g (fi_platform fi) fi)
    folders [].

(** *** The output files of [summarize_task] *)

Inductive summary_writer := WriteCsv | WriteMarkdown | Unsupported.

(** The choice of the writer by the extension of [output_path]. *)
Definition summary_format (output_path : string) : summary_writer :=
  if py_endswith ".csv" (py_lower output_path) then WriteCsv
  else if py_endswith ".md" (py_lower output_path) then WriteMarkdown
  else Unsupported.

(** [output_path.replace('.csv', '_summary.csv')] in [_write_summary_csv] *)
Definition summary_path (output_path : string) : string :=
  py_replace ".csv" "_summary.csv" output_path.

(** *** The statistics by backend of [_write_summary_csv] *)

Section Summary.

(** [float(s)] of a string: Python's float parser. *)
Variable float_of_str : string -> option Q.

(** [float(v)] of a value of results.json; [None]: it raises. *)
Definition py_float (v : pyval) : option Q :=
  match v with
  | PNum q => Some q
  | PStr s => float_of_str s
  | PNone | PHist _ => None
  end.

(** A row of the summary: [_folder], [_backend] and the fields with
    units, in order. *)
Record sentry := { s_folder : string; s_backend : string; s_fields : dict }.

(** [entry.get(k, d)] *)
Definition py_get (d : dict) (k : string) (dflt : pyval) : pyval :=
  match dict_get d k with Some v => v | None => dflt end.

(** [float(tiff_count) > 0], an entry whose conversion raises being
    skipped. *)
Definition tiff_positive (e : sentry) : bool :=
  match py_float (py_get (s_fields e) "tiff_count [files]" (PNum 0)) with
  | Some x => negb (Qle_bool x 0)
  | None => false
  end.

(** The [values] of one field over the entries of one backend. *)
Fixpoint collect_values (field : string) (entries : list sentry) : list Q :=
  match entries with
  | [] => []
  | e :: es =>
      match dict_get (s_fields e) field with
      | None | Some PNone => collect_values field es
      | Some v =>
          match py_float v with
          | Some x => x :: collect_values field es
          | None => collect_values field es
          end
      end
  end.

(** A row of the statistics ("stddev", a square root, is left out). *)
Record stat_row := {
  sr_backend : string; sr_metric : string; sr_n : nat;
  sr_min : Q; sr_max : Q; sr_average : Q
}.

Definition stat_row_of (backend field : string) (entries : list sentry)
  : list stat_row :=
  match collect_values field entries with
  | [] => []
  | x :: r =>
      let values := x :: r in
      [{| sr_backend := backend; sr_metric := field; sr_n := List.length values;
          sr_min := fold_left Qmin r x; sr_max := fold_left Qmax r x;
          sr_average := fold_left Qplus values 0 / inject_Z (Z.of_nat (List.length values)) |}]
  end.

Definition summary_stats (data : list sentry) : list stat_row :=
  match filter tiff_positive data with
  | [] => []
  | (e0 :: _) as filtered_data =>
      let timing_fields := map fst (s_fields e0) in
      let backend_groups :=
        fold_left (fun g e => group_add g (s_backend e) e) filtered_data [] in
      flat_map (fun '(backend, backend_entries) =>
                  flat_map (fun field => stat_row_of backend field backend_entries)
                    timing_fields)
        backend_groups
  end.

End Summary.

(** *** One reference platform against one other in [compare_task] *)

Record cmp_result := {
  c_total : nat; c_matching : nat; c_not_matching : nat; c_missing : nat;
  c_reasons : list string
}.

Section Compare.

(** [get_tiff_files(folder)] and [compare_geotiffs(ref, comp, tolerance)]
    ([match] and [reason]), both reading GeoTIFF files through GDAL. *)
Variable get_tiff_files : string -> list string.
Variable compare_geotiffs : string -> string -> bool * string.

(** [{os.path.basename(t): t for t in comp_tiffs}]: a later file of the same
    name replaces an earlier one. *)
Definition tiff_names (comp_tiffs : list string) : list (string * string) :=
  fold_left (fun d t => (py_basename t, t) :: d) comp_tiffs [].

Definition compare_one (comp_names : list (string * string)) (r : cmp_result)
  (ref_tiff : string) : cmp_result :=
  let ref_name := py_basename ref_tiff in
  match assoc_str comp_names ref_name with
  | None =>
      {| c_total := c_total r; c_matching := c_matching r;
         c_not_matching := c_not_matching r; c_missing := S (c_missing r);
         c_reasons := (c_reasons r ++ [("Missing file: " ++ ref_name)%string])%list |}
  | Some comp =>
      let (m, reason) := compare_geotiffs ref_tiff comp in
      if m then
        {| c_total := c_total r; c_matching := S (c_matching r);
           c_not_matching := c_not_matching r; c_missing := c_missing r;
           c_reasons := c_reasons r |}
      else
        {| c_total := c_total r; c_matching := c_matching r;
           c_not_matching := S (c_not_matching r); c_missing := c_missing r;
           c_reasons := (c_reasons r ++ [(ref_name ++ ": " ++ reason)%string])%list |}
  end.

(** [comparison_results[scenario][platform]] for the first reference folder
    [ref_folder] and the comparison folders [comp_folders] of the scenario. *)
Definition compare_platform (ref_folder : string) (comp_folders : list string)
  (platform scenario : string) : cmp_result :=
  let ref_tiffs := get_tiff_files ref_folder in
  let total_files := List.length ref_tiffs in
  let r0 := {| c_total := total_files; c_matching := 0; c_not_matching := 0;
               c_missing := 0; c_reasons := [] |} in
  match comp_folders with
  | [] =>
      {| c_total := total_files; c_matching := 0; c_not_matching := 0;
         c_missing := total_files;
         c_reasons := ["No " ++ platform ++ " folder for scenario " ++ scenario] |}
  | comp_folder :: _ =>
      let comp_tiff_names := tiff_names (get_tiff_files comp_folder) in
      fold_left (compare_one comp_tiff_names) ref_tiffs r0
  end.

End Compare.

(** *** [connect_to_backend] *)

Record ConnEnv := {
  connect_ok_at : pyval -> bool;   (** [openeo.connect(url)] *)
  ee_basic_ok : bool               (** [authenticate_basic(username='group3', ...)] *)
}.

(** The connection made (to the url given), [None] when the function
    returns [None], or an exception that leaves it. *)
Definition connect_to_backend (ce : ConnEnv) (backend : dict) : outcome (option pyval) :=
  let body : outcome (option pyval) :=
    match dict_get backend "url" with
    | None => Raise (Exn "KeyError")
    | Some url =>
        if pyeq_str url earth_engine_url then
          if connect_ok_at ce (PStr earth_engine_url) then
            if ee_basic_ok ce then
              match dict_get backend "name" with
              | Some _ => Ok (Some (PStr earth_engine_url))
              | None => Raise (Exn "KeyError")
              end
            else Raise (Exn "authentication failed")
          else Raise (Exn "connect failed")
        else if connect_ok_at ce url then
          match dict_get backend "name" with
          | Some _ => Ok (Some url)
          | None => Raise (Exn "KeyError")
          end
        else Raise (Exn "connect failed")
    end in
  match body with
  | Raise _ =>
      (* the message of [logger.error] reads [backend['name']] and
         [backend['url']] *)
      match dict_get backend "name", dict_get backend "url" with
      | Some _, Some _ => Ok None
      | _, _ => Raise (Exn "KeyError")
      end
  | r => r
  end.

(** ** Facts about the polling loop *)

Lemma Qgtb_true a b : Qgtb a b = true -> b < a.
Proof.
  unfold Qgtb. intro H. apply negb_true_iff in H.
  apply Qnot_le_lt. intro Hle. apply Qle_bool_iff in Hle. congruence.
Qed.

Lemma Qgtb_false a b : Qgtb a b = false -> a <= b.
Proof.
  unfold Qgtb. intro H. apply negb_false_iff in H. now apply Qle_bool_iff.
Qed.

(** The loop only writes the keys "job_status" and "error" of [results]. *)
Definition frame (r r' : dict) : Prop :=
  forall k, k <> "job_status" -> k <> "error" -> dict_get r' k = dict_get r k.

Lemma frame_refl r : frame r r.
Proof. intros k _ _. reflexivity. Qed.

Lemma frame_trans r1 r2 r3 : frame r1 r2 -> frame r2 r3 -> frame r1 r3.
Proof. intros H1 H2 k A B. rewrite H2, H1; auto. Qed.

Lemma frame_set r k v :
  k = "job_status" \/ k = "error" -> frame r (dict_set r k v).
Proof.
  intros Hk k' A B. cbn.
  destruct (String.eqb_spec k k'); [subst; destruct Hk; congruence | reflexivity].
Qed.

Definition interval_ok (ls : LoopSt) : Prop :=
  5 <= poll_interval ls <= 30.

Lemma next_interval_ok pi :
  5 <= pi <= 30 -> 5 <= Qmin (pi * (3#2)) max_poll_interval <= 30.
Proof.
  intros [H1 H2]. split.
  - apply Q.min_glb; unfold max_poll_interval; lra.
  - apply Q.le_min_r.
Qed.

(** The status history after one iteration: unchanged, or one assignment. *)
Definition hist_step1 (h h' : list (string * Q)) : Prop :=
  h' = h \/ exists s t, h' = odict_set h s t.

(** One iteration of the loop, after the timeout check: what it does to the
    saved files, the [results] dict and the status history. *)
Lemma iteration_frame e jst ls w w' r :
  try_except (loop_try e ls) (fun _ => loop_except jst ls) w = (w', r) ->
  saved w' = saved w /\ frame (results w) (results w') /\
  match r with
  | Ok (Done ls') | Ok (Again ls') => hist_step1 (status_times ls) (status_times ls')
  | _ => False
  end.
Proof.
  intros Hrun.
  unfold try_except, loop_try, loop_except, bind, time_time, job_status in Hrun.
  destruct (poll e (npoll w)) as [d [s|]] eqn:Ep; cbn in Hrun.
  - destruct (is_terminal s), (negb (String.eqb s (last_status ls)));
      cbn in Hrun; inversion Hrun; subst; clear Hrun; cbn;
      (split; [reflexivity | split; [apply frame_set; auto | unfold hist_step1; eauto]]).
  - destruct (Qgtb (clock w + d - jst) timeout);
      cbn in Hrun; inversion Hrun; subst; clear Hrun; cbn;
      (split; [reflexivity | split; [try apply frame_set; auto using frame_refl | ]]);
      left; reflexivity.
Qed.

(** The same iteration and the clock: the poll made in it takes
    [fst (poll e (npoll w))] seconds, each sleep is a poll interval. *)
Lemma iteration_clock e jst ls w w' r :
  (forall n, 0 <= fst (poll e n)) -> interval_ok ls ->
  try_except (loop_try e ls) (fun _ => loop_except jst ls) w = (w', r) ->
  match r with
  | Ok (Done ls') => clock w <= clock w' <= clock w + fst (poll e (npoll w))
  | Ok (Again ls') =>
      clock w + 5 <= clock w' <= clock w + fst (poll e (npoll w)) + 30 /\
      interval_ok ls'
  | _ => False
  end.
Proof.
  intros Hpoll Hint Hrun.
  specialize (Hpoll (npoll w)). red in Hint.
  unfold try_except, loop_try, loop_except, bind, time_time, job_status in Hrun.
  destruct (poll e (npoll w)) as [d [s|]] eqn:Ep; simpl in Hpoll; cbn in Hrun.
  - pose proof (next_interval_ok _ Hint) as Hn.
    destruct (is_terminal s), (negb (String.eqb s (last_status ls)));
      cbn in Hrun; inversion Hrun; subst; clear Hrun; cbn;
      unfold max_poll_interval in *; try lra; (split; [lra | exact Hn]).
  - destruct (Qgtb (clock w + d - jst) timeout);
      cbn in Hrun; inversion Hrun; subst; clear Hrun; cbn; [lra | ].
    split; [lra | exact Hint].
Qed.

(** The status histories reachable by the assignments
    [status_times[s] = t] of the loop. *)
Inductive hist_reach : list (string * Q) -> list (string * Q) -> Prop :=
| hist_refl h : hist_reach h h
| hist_step h h' s t : hist_reach (odict_set h s t) h' -> hist_reach h h'.

Lemma hist_reach_step1 h1 h2 h3 :
  hist_step1 h1 h2 -> hist_reach h2 h3 -> hist_reach h1 h3.
Proof.
  intros [-> | (s & t & ->)] H; [exact H | eapply hist_step; exact H].
Qed.

(** The whole loop, for any fuel: no exception escapes it, it writes no file,
    it only writes "job_status" and "error" of [results], and the history
    only changes by assignments. *)
Lemma poll_loop_frame fuel e jst ls w w' r :
  poll_loop fuel e jst ls w = (w', r) ->
  saved w' = saved w /\ frame (results w) (results w') /\
  match r with
  | Ok ls' => hist_reach (status_times ls) (status_times ls')
  | Raise _ => False
  | NoFuel => True
  end.
Proof.
  revert ls w w' r.
  induction fuel as [|fuel IH]; intros ls w w' r Hrun.
  - cbn in Hrun. inversion Hrun; subst.
    split; [reflexivity | split; [apply frame_refl | exact I]].
  - cbn [poll_loop] in Hrun. unfold bind at 1, time_time in Hrun.
    destruct (Qgtb (clock w - jst) timeout).
    + cbn in Hrun. inversion Hrun; subst; cbn.
      split; [reflexivity | split; [apply frame_set; auto | constructor]].
    + unfold bind at 1 in Hrun.
      destruct (try_except (loop_try e ls) (fun _ => loop_except jst ls) w)
        as [w1 r1] eqn:E1.
      pose proof (iteration_frame e jst ls w w1 r1 E1) as (Hs1 & Hf1 & H1).
      destruct r1 as [[ls1|ls1]| |]; try contradiction.
      * cbn in Hrun. inversion Hrun; subst.
        split; [assumption | split; [assumption | ]].
        eapply hist_reach_step1; [exact H1 | constructor].
      * destruct (IH ls1 w1 w' r Hrun) as (Hs2 & Hf2 & Hr).
        split; [congruence | split; [eapply frame_trans; eauto | ]].
        destruct r; auto. eapply hist_reach_step1; eauto.
Qed.

(** The clock does not go back during the loop. *)
Lemma poll_loop_clock fuel e jst ls w w' r :
  (forall n, 0 <= fst (poll e n)) -> interval_ok ls ->
  poll_loop fuel e jst ls w = (w', r) -> clock w <= clock w'.
Proof.
  revert ls w w' r.
  induction fuel as [|fuel IH]; intros ls w w' r Hpoll Hint Hrun.
  - cbn in Hrun. inversion Hrun; subst. lra.
  - cbn [poll_loop] in Hrun. unfold bind at 1, time_time in Hrun.
    destruct (Qgtb (clock w - jst) timeout).
    + cbn in Hrun. inversion Hrun; subst; cbn. lra.
    + unfold bind at 1 in Hrun.
      destruct (try_except (loop_try e ls) (fun _ => loop_except jst ls) w)
        as [w1 r1] eqn:E1.
      pose proof (iteration_clock e jst ls w w1 r1 Hpoll Hint E1) as H1.
      destruct r1 as [[ls1|ls1]| |]; try contradiction.
      * cbn in Hrun. inversion Hrun; subst. lra.
      * destruct H1 as (Hc & Hint1).
        specialize (IH ls1 w1 w' r Hpoll Hint1 Hrun). lra.
Qed.

Lemma Q_of_nat_succ n :
  (Z.of_nat (S n) # 1) == (Z.of_nat n # 1) + 1.
Proof. unfold Qeq, Qplus; simpl. lia. Qed.

Lemma Q_of_nat_nonneg n : 0 <= (Z.of_nat n # 1).
Proof. unfold Qle; simpl. lia. Qed.

(** Termination: every iteration that does not leave the loop advances the
    clock by at least 5 seconds, so [S n] iterations suffice once [5 n]
    seconds more would pass the timeout. *)
Lemma poll_loop_terminates n e jst ls w :
  (forall k, 0 <= fst (poll e k)) -> interval_ok ls ->
  timeout < clock w - jst + 5 * (Z.of_nat n # 1) ->
  exists w' ls', poll_loop (S n) e jst ls w = (w', Ok ls').
Proof.
  revert ls w.
  induction n as [|n IH]; intros ls w Hpoll Hint Hlt;
    cbn [poll_loop]; unfold bind at 1, time_time;
    destruct (Qgtb (clock w - jst) timeout) eqn:Eg;
    try (cbn; eexists _, _; reflexivity).
  - apply Qgtb_false in Eg. cbn in Hlt. unfold timeout in *. lra.
  - apply Qgtb_false in Eg.
    unfold bind at 1.
    destruct (try_except (loop_try e ls) (fun _ => loop_except jst ls) w)
      as [w1 r1] eqn:E1.
    pose proof (iteration_clock e jst ls w w1 r1 Hpoll Hint E1) as H1.
    destruct r1 as [[ls1|ls1]| |]; try contradiction.
    + cbn. eexists _, _. reflexivity.
    + destruct H1 as (Hc & Hint1).
      rewrite Q_of_nat_succ in Hlt.
      apply (IH ls1 w1 Hpoll Hint1). lra.
Qed.

(** Where the loop exits: at a check that finds the timeout already passed
    on entry (the clock has not moved), or at most
    [timeout + max_poll_interval + D] seconds after [jst], [D] bounding the
    duration of one poll. *)
Lemma poll_loop_exit_time fuel e D jst ls w w' ls' :
  (forall k, 0 <= fst (poll e k) <= D) -> interval_ok ls ->
  poll_loop fuel e jst ls w = (w', Ok ls') ->
  clock w' == clock w \/ clock w' - jst <= timeout + max_poll_interval + D.
Proof.
  revert ls w.
  induction fuel as [|fuel IH]; intros ls w Hpoll Hint Hrun; [discriminate | ].
  assert (Hnn : forall k, 0 <= fst (poll e k)) by (intro k; apply Hpoll).
  cbn [poll_loop] in Hrun. unfold bind at 1, time_time in Hrun.
  destruct (Qgtb (clock w - jst) timeout) eqn:Eg.
  - cbn in Hrun. inversion Hrun; subst. left. reflexivity.
  - apply Qgtb_false in Eg. unfold bind at 1 in Hrun.
    destruct (try_except (loop_try e ls) (fun _ => loop_except jst ls) w)
      as [w1 r1] eqn:E1.
    pose proof (iteration_clock e jst ls w w1 r1 Hnn Hint E1) as H1.
    specialize (Hpoll (npoll w)) as Hd.
    destruct r1 as [[ls1|ls1]| |]; try contradiction.
    + cbn in Hrun. inversion Hrun; subst. right.
      unfold max_poll_interval. lra.
    + destruct H1 as (Hc & Hint1).
      destruct (IH ls1 w1 Hpoll Hint1 Hrun) as [Hb | Hb]; right;
        unfold max_poll_interval in *; lra.
Qed.

(** More fuel than needed does not change the result. *)
Lemma poll_loop_more_fuel n m e jst ls w w' ls' :
  poll_loop n e jst ls w = (w', Ok ls') -> (n <= m)%nat ->
  poll_loop m e jst ls w = (w', Ok ls').
Proof.
  revert m ls w. induction n as [|n IH]; intros m ls w Hrun Hle.
  - discriminate.
  - destruct m as [|m]; [lia | ].
    cbn [poll_loop] in *. unfold bind at 1 in Hrun. unfold bind at 1.
    unfold time_time in *.
    destruct (Qgtb (clock w - jst) timeout); [exact Hrun | ].
    unfold bind at 1 in Hrun. unfold bind at 1.
    destruct (try_except (loop_try e ls) (fun _ => loop_except jst ls) w)
      as [w1 [[l|l]| |]]; try exact Hrun.
    apply IH; [exact Hrun | lia].
Qed.

(** ** Symbolic execution of [run_task] *)

Ltac run_unfold :=
  unfold run_task, connect_phase, job_phase, finally_return, try_except,
    fail_if, get_num, get_res, get_results, set_results, save_results,
    set_res, elapse, set_clock, time_time, bind, ret, raise in *.

(** Case analysis on the outcomes of the environment and of the loop that
    the run depends on. *)
Ltac run_cases H :=
  run_unfold; cbn in H;
  repeat (match type of H with
    | context [poll_loop ?f ?e ?j ?l ?w] =>
        let EL := fresh "EL" in
        let w2 := fresh "w" in let r := fresh "r" in
        destruct (poll_loop f e j l w) as [w2 r] eqn:EL;
        let Hs := fresh "Hs" in let Hf := fresh "Hf" in let Hh := fresh "Hh" in
        destruct (poll_loop_frame _ _ _ _ _ _ _ EL) as (Hs & Hf & Hh);
        destruct r as [?ls | ?ex |]; [ | contradiction Hh | ];
        rewrite ?Hs in H; cbn in H
    | context [dict_get (results ?w2) ?k] =>
        match goal with
        | Hf : frame _ (results w2) |- _ =>
            rewrite (Hf k) in H by discriminate; cbn in H
        end
    | context [match ?b with true => _ | false => _ end] =>
        let Eb := fresh "Eb" in destruct b eqn:Eb; cbn in H
    | context [match ?x with Some _ => _ | None => _ end] =>
        let Eo := fresh "Eo" in destruct x eqn:Eo; cbn in H
    | context [match ?x with PNone => _ | PStr _ => _ | PNum _ => _ | PHist _ => _ end] =>
        let Ev := fresh "Ev" in destruct x eqn:Ev; cbn in H
    | context [match ?x with Exn _ => _ end] =>
        let m := fresh "msg" in destruct x as [m]; cbn in H
    end).

(** Rewrite the lookups of the goal into the dict after the loop with the
    values before it. *)
Ltac frame_goal :=
  repeat match goal with
  | |- context [dict_get (results ?w) ?k] =>
      match goal with
      | Hf : frame _ (results w) |- _ => rewrite (Hf k) by discriminate; cbn
      end
  end.

(** The same in a hypothesis. *)
Ltac frame_in H :=
  repeat match type of H with
  | context [dict_get (results ?w) ?k] =>
      match goal with
      | Hf : frame _ (results w) |- _ =>
          rewrite (Hf k) in H by discriminate; cbn in H
      end
  end.

(** Split the equation [run_task ... = (w, o)] reached by the case
    analysis. *)
Ltac run_inv H :=
  let Hw := fresh "Hw" in let Ho := fresh "Ho" in
  apply pair_equal_spec in H; destruct H as [Hw Ho]; subst;
  try (injection Ho as Ho; subst); try discriminate Ho.

Ltac env_destruct e :=
  destruct e as [api copy load conn basic oidc dconn job dcreate
                 start dstart polls download ddl]; cbn in *.

(** [run_task] writes [results.json] once on every route that returns, and
    the record written is the one returned. *)
Lemma run_task_saves fuel e w0 w o :
  run_task fuel e w0 = (w, o) ->
  match o with
  | Ok d => saved w = (saved w0 ++ [d])%list
  | Raise _ => copy_ok e = false /\ saved w = saved w0
  | NoFuel => True
  end.
Proof.
  intro Hrun. run_cases Hrun.
  all: inversion Hrun; subst; cbn; try reflexivity; try exact I.
  split; [apply negb_true_iff; assumption | reflexivity].
Qed.

(** With 722 iterations of fuel the loop always finishes when it starts
    no earlier than [jst]: 721 non-final iterations take at least
    3605 seconds. *)
Lemma poll_loop_finishes fuel e jst ls w :
  (forall k, 0 <= fst (poll e k)) -> interval_ok ls -> jst <= clock w ->
  (722 <= fuel)%nat ->
  exists w' ls', poll_loop fuel e jst ls w = (w', Ok ls').
Proof.
  intros Hpoll Hint Hj Hf.
  destruct (poll_loop_terminates 721 e jst ls w Hpoll Hint) as (w' & ls' & H).
  - unfold timeout. assert (Hq : (Z.of_nat 721 # 1) == 721) by reflexivity.
    rewrite Hq. lra.
  - exists w', ls'. eapply poll_loop_more_fuel; [exact H | exact Hf].
Qed.

Lemma loop_init_ok t : interval_ok (loop_init t).
Proof. unfold interval_ok, loop_init; cbn. lra. Qed.

(** A run that runs out of fuel does so inside the loop, which it entered no
    earlier than its [job_start_time]. *)
Lemma run_task_nofuel fuel e w0 w :
  env_wf e -> run_task fuel e w0 = (w, NoFuel) ->
  exists jst w1 w2, jst <= clock w1 /\
    poll_loop fuel e jst (loop_init jst) w1 = (w2, NoFuel).
Proof.
  intros Hwf Hrun. destruct Hwf as (Hc & Hcr & Hst & Hdl & Hp).
  run_cases Hrun.
  all: inversion Hrun; subst.
  all: eexists _, _, _; split; [ | exact EL]; cbn; lra.
Qed.

(** Every run with a well-formed clock, whose setup succeeds, returns, given
    722 iterations of fuel. *)
Lemma run_task_returns fuel e w0 :
  env_wf e -> copy_ok e = true -> (722 <= fuel)%nat ->
  exists w d, run_task fuel e w0 = (w, Ok d).
Proof.
  intros Hwf Hcopy Hfuel.
  destruct (run_task fuel e w0) as [w o] eqn:Hrun.
  pose proof (run_task_saves fuel e w0 w o Hrun) as Hs.
  destruct o as [d|ex|].
  - eauto.
  - destruct Hs as [Hc _]. congruence.
  - destruct (run_task_nofuel fuel e w0 w Hwf Hrun) as (jst & w1 & w2 & Hj & EL).
    destruct Hwf as (_ & _ & _ & _ & Hp).
    destruct (poll_loop_finishes fuel e jst (loop_init jst) w1 Hp
                (loop_init_ok jst) Hj Hfuel) as (w' & ls' & H).
    congruence.
Qed.

(** ** The status history *)

Lemma odict_set_keys h s t k :
  In k (map fst (odict_set h s t)) <-> k = s \/ In k (map fst h).
Proof.
  induction h as [|[k' v'] h IH]; cbn.
  - split; intros [H|H]; auto.
  - destruct (String.eqb_spec s k'); cbn.
    + subst. split; intros [H|H]; auto.
    + rewrite IH. split; intros [H|[H|H]]; auto.
Qed.

Lemma odict_set_nodup h s t :
  NoDup (map fst h) -> NoDup (map fst (odict_set h s t)).
Proof.
  induction h as [|[k' v'] h IH]; cbn; intro Hnd.
  - constructor; [intros [] | constructor].
  - inversion Hnd as [|? ? Hnin Hnd']; subst.
    destruct (String.eqb_spec s k'); cbn.
    + subst. constructor; assumption.
    + constructor; [ | exact (IH Hnd')].
      rewrite odict_set_keys. intros [Heq | Hin]; [congruence | contradiction].
Qed.

Lemma hist_reach_nodup h h' :
  hist_reach h h' -> NoDup (map fst h) -> NoDup (map fst h').
Proof.
  induction 1; intro Hnd; [exact Hnd | apply IHhist_reach, odict_set_nodup, Hnd].
Qed.

Lemma odict_get_set_same h s t : odict_get (odict_set h s t) s = Some t.
Proof.
  induction h as [|[k' v'] h IH]; cbn; [rewrite String.eqb_refl; reflexivity | ].
  destruct (String.eqb_spec s k'); cbn; rewrite ?String.eqb_refl; [reflexivity | ].
  destruct (String.eqb_spec s k'); [contradiction | exact IH].
Qed.

Lemma odict_get_set_other h s t k :
  k <> s -> odict_get (odict_set h s t) k = odict_get h k.
Proof.
  intro Hne.
  induction h as [|[k' v'] h IH]; cbn.
  - destruct (String.eqb_spec k s); [contradiction | reflexivity].
  - destruct (String.eqb_spec s k'); cbn.
    + subst. destruct (String.eqb_spec k k'); [contradiction | reflexivity].
    + destruct (String.eqb_spec k k'); [reflexivity | exact IH].
Qed.

(** An existing key keeps its place. *)
Lemma odict_set_in_place h s t :
  In s (map fst h) -> map fst (odict_set h s t) = map fst h.
Proof.
  induction h as [|[k' v'] h IH]; cbn; [intros [] | intro Hin].
  destruct (String.eqb_spec s k'); cbn; [congruence | ].
  destruct Hin as [Heq | Hin]; [congruence | f_equal; exact (IH Hin)].
Qed.

Definition step_ls (r : step) : LoopSt :=
  match r with Done ls | Again ls => ls end.

(** What one poll that answers [s] does to the history: nothing when [s] is
    the previously polled status, otherwise [status_times[s] = now]. *)
Lemma iteration_history e jst ls w w' r d s :
  poll e (npoll w) = (d, Some s) ->
  try_except (loop_try e ls) (fun _ => loop_except jst ls) w = (w', Ok r) ->
  last_status (step_ls r) = s /\
  status_times (step_ls r) =
    if String.eqb s (last_status ls) then status_times ls
    else odict_set (status_times ls) s (clock w).
Proof.
  intros Ep Hrun.
  unfold try_except, loop_try, bind, time_time, job_status in Hrun.
  rewrite Ep in Hrun. cbn in Hrun.
  destruct (String.eqb_spec s (last_status ls)) as [Heq | Hne]; cbn in Hrun;
    destruct (is_terminal s); cbn in Hrun; inversion Hrun; subst; cbn;
    auto.
Qed.

(** ** Runs that reach the timeout *)

(** One iteration against a backend that never answers a terminal status:
    "job_status" stays non-terminal, and the iteration leaves the loop only
    through the timeout check of its [except] handler. *)
Lemma iteration_no_terminal e jst ls w w' r :
  never_terminal e -> js_ok (results w) ->
  try_except (loop_try e ls) (fun _ => loop_except jst ls) w = (w', r) ->
  js_ok (results w') /\
  match r with
  | Ok (Done _) => timeout < clock w' - jst
  | _ => True
  end.
Proof.
  intros Hnt Hjs Hrun. specialize (Hnt (npoll w)).
  unfold try_except, loop_try, loop_except, bind, time_time, job_status in Hrun.
  destruct (poll e (npoll w)) as [d [s|]] eqn:Ep; cbn in Hnt, Hrun.
  - rewrite Hnt in Hrun.
    destruct (negb (String.eqb s (last_status ls))); cbn in Hrun;
      inversion Hrun; subst; clear Hrun; unfold js_ok; cbn;
      (split; [exact Hnt | exact I]).
  - destruct (Qgtb (clock w + d - jst) timeout) eqn:Eg;
      cbn in Hrun; inversion Hrun; subst; clear Hrun; unfold js_ok in *; cbn.
    + split; [exact Hjs | apply Qgtb_true in Eg; exact Eg].
    + split; [exact Hjs | exact I].
Qed.

(** The whole loop against such a backend: when it finishes, more than
    [timeout] seconds have passed since [jst], and "job_status" holds no
    terminal status. *)
Lemma poll_loop_no_terminal fuel e jst ls w w' ls' :
  never_terminal e -> js_ok (results w) ->
  poll_loop fuel e jst ls w = (w', Ok ls') ->
  js_ok (results w') /\ timeout < clock w' - jst.
Proof.
  revert ls w.
  induction fuel as [|fuel IH]; intros ls w Hnt Hjs Hrun; [discriminate | ].
  cbn [poll_loop] in Hrun. unfold bind at 1, time_time in Hrun.
  destruct (Qgtb (clock w - jst) timeout) eqn:Eg.
  - cbn in Hrun. inversion Hrun; subst; clear Hrun. unfold js_ok in *; cbn.
    split; [exact Hjs | apply Qgtb_true in Eg; exact Eg].
  - unfold bind at 1 in Hrun.
    destruct (try_except (loop_try e ls) (fun _ => loop_except jst ls) w)
      as [w1 r1] eqn:E1.
    destruct (iteration_no_terminal e jst ls w w1 r1 Hnt Hjs E1) as [Hjs1 H1].
    destruct r1 as [[ls1|ls1]| |]; cbn in Hrun; try discriminate Hrun.
    + inversion Hrun; subst. split; assumption.
    + exact (IH ls1 w1 Hnt Hjs1 Hrun).
Qed.

(** With every poll taking between 0 and [D] seconds, the loop started by
    [run_task] finishes with 722 iterations of fuel, and exits at its entry
    or at most [timeout + max_poll_interval + D] seconds after [jst]. *)
Lemma poll_loop_bounded fuel e D jst t w :
  (forall k, 0 <= fst (poll e k) <= D) -> jst <= clock w -> (722 <= fuel)%nat ->
  exists w' ls', poll_loop fuel e jst (loop_init t) w = (w', Ok ls') /\
    (clock w' == clock w \/ clock w' - jst <= timeout + max_poll_interval + D).
Proof.
  intros Hpoll Hj Hfuel.
  assert (Hnn : forall k, 0 <= fst (poll e k)) by (intro k; apply Hpoll).
  destruct (poll_loop_finishes fuel e jst (loop_init t) w Hnn (loop_init_ok t) Hj Hfuel)
    as (w' & ls' & Hrun).
  exists w', ls'. split; [exact Hrun | ].
  exact (poll_loop_exit_time fuel e D jst (loop_init t) w w' ls' Hpoll
           (loop_init_ok t) Hrun).
Qed.

(** The environment of the concrete runs is well-formed. *)
Lemma env_with_polls_wf polls :
  (forall n, 0 <= fst (polls n)) -> env_wf (env_with_polls polls).
Proof. intro Hp. unfold env_wf; cbn. repeat split; try lra. exact Hp. Qed.

(** ** The claims *)

(** C1 (corrected).  Every invocation of [run_task] whose setup copies the
    scenario file into the output directory returns, and writes
    [results.json] exactly once, on every route (load, connection or
    authentication failure, failure of any step of the job, timeout,
    success); the record written is the one returned.  The clock is
    well-formed and 722 loop iterations of fuel always suffice. *)
Theorem run_task_persists_once fuel e w0 :
  env_wf e -> copy_ok e = true -> (722 <= fuel)%nat ->
  exists w d, run_task fuel e w0 = (w, Ok d) /\ saved w = (saved w0 ++ [d])%list.
Proof.
  intros Hwf Hcopy Hfuel.
  destruct (run_task_returns fuel e w0 Hwf Hcopy Hfuel) as (w & d & Hrun).
  exists w, d. split; [exact Hrun | ].
  exact (run_task_saves fuel e w0 w (Ok d) Hrun).
Qed.

Lemma run_task_persists_once_witness :
  env_wf (env_with_polls polls_finish) /\
  exists w d, run_task 722 (env_with_polls polls_finish) world0 = (w, Ok d) /\
              saved w = (saved world0 ++ [d])%list.
Proof.
  split.
  - unfold env_wf; cbn. repeat split; try lra.
    intro n. destruct n as [|[|[|n]]]; cbn; lra.
  - apply run_task_persists_once; [ | reflexivity | lia ].
    unfold env_wf; cbn. repeat split; try lra.
    intro n. destruct n as [|[|[|n]]]; cbn; lra.
Defined.

(** C1 counterexample: when copying the scenario file raises, the exception
    leaves [run_task] and no [results.json] is written. *)
Lemma run_task_persists_once_cex :
  let e := mk_env false true true true (Some "j-1") true polls_finish true in
  saved (fst (run_task 722 e world0)) = [] /\
  snd (run_task 722 e world0) = Raise (Exn "copyfile failed").
Proof. split; reflexivity. Qed.

(** C2 (corrected).  The history [status_times] has each status name at
    most once, in the loop and in the persisted record; a poll answering the
    previously polled status leaves it unchanged; a poll answering a
    different status sets that status's timestamp to the time of the poll,
    overwriting an earlier timestamp of the same status in place. *)
Theorem status_history_records_changes :
  (forall fuel e jst ls w w' ls',
     NoDup (map fst (status_times ls)) ->
     poll_loop fuel e jst ls w = (w', Ok ls') ->
     NoDup (map fst (status_times ls'))) /\
  (forall fuel e w0 w d, run_task fuel e w0 = (w, Ok d) ->
     exists h, dict_get d "job_status_history" = Some (PHist h) /\ NoDup (map fst h)) /\
  (forall e jst ls w w' r d s,
     poll e (npoll w) = (d, Some s) ->
     try_except (loop_try e ls) (fun _ => loop_except jst ls) w = (w', Ok r) ->
     last_status (step_ls r) = s /\
     (s = last_status ls -> status_times (step_ls r) = status_times ls) /\
     (s <> last_status ls ->
        status_times (step_ls r) = odict_set (status_times ls) s (clock w))) /\
  (forall h s t, odict_get (odict_set h s t) s = Some t /\
     (forall k, k <> s -> odict_get (odict_set h s t) k = odict_get h k) /\
     (In s (map fst h) -> map fst (odict_set h s t) = map fst h)).
Proof.
  split; [ | split; [ | split]].
  - intros fuel e jst ls w w' ls' Hnd Hrun.
    destruct (poll_loop_frame fuel e jst ls w w' (Ok ls') Hrun) as (_ & _ & Hh).
    exact (hist_reach_nodup _ _ Hh Hnd).
  - intros fuel e w0 w d Hrun. run_cases Hrun.
    all: inversion Hrun; subst; cbn; eexists; split; try reflexivity.
    all: try (repeat constructor; intros []; fail).
    all: eapply hist_reach_nodup; [eassumption | ]; cbn;
         repeat constructor; intros [].
  - intros e jst ls w w' r d s Ep Hrun.
    destruct (iteration_history e jst ls w w' r d s Ep Hrun) as [Hl Hs].
    split; [exact Hl | split; intro Hc; rewrite Hs].
    + rewrite Hc, String.eqb_refl. reflexivity.
    + destruct (String.eqb_spec s (last_status ls)); [contradiction | reflexivity].
  - intros h s t. split; [apply odict_get_set_same | split].
    + intros k Hk. apply odict_get_set_other, Hk.
    + apply odict_set_in_place.
Qed.

Lemma status_history_records_changes_witness :
  exists w o, run_task 722 (env_with_polls polls_reenter) world0 = (w, o) /\
    exists d, o = Ok d /\
      exists h, dict_get d "job_status_history" = Some (PHist h) /\ NoDup (map fst h).
Proof.
  destruct (run_task 722 (env_with_polls polls_reenter) world0) as [w o] eqn:E.
  exists w, o. split; [reflexivity | ].
  destruct o as [d|ex|]; [ | vm_compute in E; discriminate E .. ].
  exists d. split; [reflexivity | ].
  exact (proj1 (proj2 status_history_records_changes) 722%nat _ world0 w d E).
Defined.

(** C2 counterexample: polls answering queued (at time 4), running (at
    11.5), queued again (at 22.75), finished.  The persisted history keeps
    "queued" at its first place with the re-entry time 22.75, so its
    timestamps decrease in insertion order and "queued" does not map to its
    first observation. *)
Lemma status_history_records_changes_cex :
  match run_task 722 (env_with_polls polls_reenter) world0 with
  | (_, Ok d) =>
      match dict_get d "job_status_history" with
      | Some (PHist h) =>
          h = [("submitted", 3); ("queued", 182 # 8); ("running", 23 # 2);
               ("finished", 2536 # 64)] /\
          ts_nondecreasing h = false
      | _ => False
      end
  | _ => False
  end.
Proof. vm_compute. split; reflexivity. Qed.

(** C3 (code bug).  [total_time] is computed only in the [finally] block of
    the job phase: the early returns after a failure to load the process
    graph, to connect or to authenticate write a record whose "total_time"
    is still [None]. *)
Theorem total_time_absent_on_early_return :
  match run_task 722 (mk_env true false true true (Some "j-1") true polls_finish true)
          world0 with
  | (w, Ok d) => saved w = [d] /\ dict_get d "total_time" = Some PNone
  | _ => False
  end /\
  match run_task 722 (mk_env true true true false (Some "j-1") true polls_finish true)
          world0 with
  | (w, Ok d) => saved w = [d] /\ dict_get d "total_time" = Some PNone /\
                 dict_get d "error" = Some (PStr "Authentication failed")
  | _ => False
  end.
Proof. split; vm_compute; auto. Qed.

(** C4 (corrected).  Against a backend that never answers a terminal
    status (its status checks may also raise), a run whose setup,
    connection, submission and start succeed leaves the loop only after more
    than [timeout] seconds since [job_start_time]; the record is still
    written exactly once, with status "failed" and "total_time" computed.
    Its "error" is not the timeout message: the check after the loop
    overwrites it with "Job ended with status: ..." (no [TimeoutError] is
    raised). *)
Theorem timeout_run_fails_and_persists fuel e w0 id :
  env_wf e -> copy_ok e = true -> load_ok e = true -> connect_succeeds e = true ->
  create_job e = Some id -> start_ok e = true -> never_terminal e ->
  (722 <= fuel)%nat ->
  exists w d, run_task fuel e w0 = (w, Ok d) /\
    saved w = (saved w0 ++ [d])%list /\
    dict_get d "status" = Some (PStr "failed") /\
    (exists x, dict_get d "job_execution_time" = Some (PNum x) /\ timeout < x) /\
    (exists s, dict_get d "error" = Some (PStr ("Job ended with status: " ++ s))) /\
    (exists T, dict_get d "total_time" = Some (PNum T)).
Proof.
  intros Hwf Hcopy Hload Hcs Hjob Hstart Hnt Hfuel.
  destruct (run_task_returns fuel e w0 Hwf Hcopy Hfuel) as (w & d & Hrun).
  exists w, d. split; [exact Hrun | ].
  split; [exact (run_task_saves fuel e w0 w (Ok d) Hrun) | ].
  unfold connect_succeeds in Hcs.
  env_destruct e. subst.
  run_cases Hrun.
  all: try (match goal with E : (_ =? earth_engine_url) = _ |- _ => rewrite E in Hcs end);
       cbn in Hcs; try discriminate Hcs.
  all: try discriminate Hjob.
  all: run_inv Hrun.
  all: match goal with
       | EL : poll_loop _ _ _ _ ?w1 = _ |- _ =>
           assert (Hjs0 : js_ok (results w1)) by (unfold js_ok; cbn; exact I);
           destruct (poll_loop_no_terminal _ _ _ _ _ _ _ Hnt Hjs0 EL) as [Hjs Hto]
       end.
  all: try (match goal with
            | Eo : dict_get (results _) "job_status" = None |- _ =>
                unfold js_ok in Hjs; rewrite Eo in Hjs; contradiction Hjs
            end).
  all: try (match goal with
            | Eo : dict_get (results _) "job_status" = Some ?p,
              Eb : pyeq_str ?p "finished" = true |- _ =>
                unfold js_ok in Hjs; rewrite Eo in Hjs;
                destruct p; cbn in Eb; try discriminate Eb;
                apply String.eqb_eq in Eb; subst; discriminate Hjs
            end).
  all: cbn; frame_goal.
  all: split; [reflexivity | ].
  all: split; [eexists; split; [reflexivity | cbn in Hto; exact Hto] | ].
  all: split; eexists; reflexivity.
Qed.

Lemma timeout_run_fails_and_persists_witness :
  exists w d, run_task 722 (env_with_polls polls_queued) world0 = (w, Ok d) /\
    saved w = (saved world0 ++ [d])%list /\
    dict_get d "status" = Some (PStr "failed") /\
    (exists x, dict_get d "job_execution_time" = Some (PNum x) /\ timeout < x) /\
    (exists s, dict_get d "error" = Some (PStr ("Job ended with status: " ++ s))) /\
    (exists T, dict_get d "total_time" = Some (PNum T)).
Proof.
  apply (timeout_run_fails_and_persists 722 (env_with_polls polls_queued) world0 "j-1").
  - apply env_with_polls_wf. intro n. vm_compute. discriminate.
  - reflexivity.
  - reflexivity.
  - reflexivity.
  - reflexivity.
  - reflexivity.
  - intro n. reflexivity.
  - lia.
Defined.

(** C4 counterexample: a backend that stays "queued".  The loop stops on
    its timeout check (about 3601.9 seconds after [job_start_time]), and the
    error recorded is "Job ended with status: queued". *)
Lemma timeout_run_fails_and_persists_cex :
  match run_task 722 (env_with_polls polls_queued) world0 with
  | (w, Ok d) =>
      length (saved w) = 1%nat /\
      dict_get d "status" = Some (PStr "failed") /\
      dict_get d "error" = Some (PStr "Job ended with status: queued") /\
      exists x, dict_get d "job_execution_time" = Some (PNum x) /\ timeout < x
  | _ => False
  end.
Proof.
  vm_compute. split; [reflexivity | split; [reflexivity | split; [reflexivity | ]]].
  eexists. split; [reflexivity | vm_compute; reflexivity].
Qed.

(** C5 (code bug).  The loop multiplies [poll_interval] by 1.5 before it
    sleeps, so the sleeps of a run are 7.5, 11.25, 16.875, ... and never
    start with the initial 5 seconds. *)
Theorem poll_sleeps_start_at_7_5 :
  sleeps (fst (run_task 722 (env_with_polls polls_finish) world0)) =
    [15 # 2; 45 # 4; 135 # 8] /\
  ~ (15 # 2 == 5).
Proof.
  split; [vm_compute; reflexivity | ].
  unfold Qeq; cbn. discriminate.
Qed.

(** C6.  In every record [run_task] writes (it is the one returned),
    "queue_time" is timestamp(running) - timestamp(queued) of the persisted
    history when both keys are in it and [None] otherwise, and
    "processing_time" is timestamp(finished) - timestamp(running) under the
    same rule. *)
Theorem queue_processing_times_derived fuel e w0 w d :
  run_task fuel e w0 = (w, Ok d) ->
  saved w = (saved w0 ++ [d])%list /\
  exists h, dict_get d "job_status_history" = Some (PHist h) /\
    dict_get d "queue_time" = Some (derived_time h "queued" "running") /\
    dict_get d "processing_time" = Some (derived_time h "running" "finished").
Proof.
  intro Hrun.
  split; [exact (run_task_saves fuel e w0 w (Ok d) Hrun) | ].
  unfold derived_time. run_cases Hrun.
  all: inversion Hrun; subst; cbn.
  all: eexists; split; [reflexivity | ].
  all: repeat match goal with
         | E : odict_get _ _ = _ |- _ => rewrite E; clear E
         end.
  all: frame_goal; split; reflexivity.
Qed.

(** C10.  "status" starts as "failed"; every record [run_task] writes has
    status "failed" or "success", and "success" only after the download
    completed, which also recorded "download_time". *)
Theorem final_status_success_only_after_download :
  (forall e t, dict_get (init_results e t) "status" = Some (PStr "failed")) /\
  (forall fuel e w0 w d, run_task fuel e w0 = (w, Ok d) ->
     saved w = (saved w0 ++ [d])%list /\
     (dict_get d "status" = Some (PStr "failed") \/
      (dict_get d "status" = Some (PStr "success") /\ download_ok e = true /\
       exists x, dict_get d "download_time" = Some (PNum x)))).
Proof.
  split; [reflexivity | ].
  intros fuel e w0 w d Hrun.
  split; [exact (run_task_saves fuel e w0 w (Ok d) Hrun) | ].
  run_cases Hrun.
  all: inversion Hrun; subst; cbn.
  all: frame_goal.
  all: first [ left; reflexivity | right; split; [reflexivity | eauto] ].
Qed.

Lemma final_status_success_only_after_download_witness :
  exists w o, run_task 722 (env_with_polls polls_finish) world0 = (w, o) /\
    exists d, o = Ok d /\ saved w = (saved world0 ++ [d])%list /\
      (dict_get d "status" = Some (PStr "failed") \/
       (dict_get d "status" = Some (PStr "success") /\
        download_ok (env_with_polls polls_finish) = true /\
        exists x, dict_get d "download_time" = Some (PNum x))).
Proof.
  destruct (run_task 722 (env_with_polls polls_finish) world0) as [w o] eqn:E.
  exists w, o. split; [reflexivity | ].
  destruct o as [d|ex|]; [ | vm_compute in E; discriminate E .. ].
  exists d. split; [reflexivity | ].
  exact (proj2 final_status_success_only_after_download 722%nat _ world0 w d E).
Defined.

Lemma queue_processing_times_derived_witness :
  exists w d,
    run_task 722 (env_with_polls polls_finish) world0 = (w, Ok d) /\
    saved w = (saved world0 ++ [d])%list /\
    exists h, dict_get d "job_status_history" = Some (PHist h) /\
      dict_get d "queue_time" = Some (derived_time h "queued" "running") /\
      dict_get d "processing_time" = Some (derived_time h "running" "finished").
Proof.
  destruct (run_task 722 (env_with_polls polls_finish) world0) as [w o] eqn:E.
  destruct o as [d|ex|]; [ | vm_compute in E; discriminate E .. ].
  exists w, d. split; [reflexivity | ].
  exact (queue_processing_times_derived 722 _ world0 w d E).
Defined.

(** C7.  When authentication (or the connection) fails, or submitting or
    starting the job raises, [run_task] stops at once: no status poll and
    no sleep happen, the record written once has status "failed" and an
    error message; its "job_id" is [None] exactly when the failure came
    before [create_job] returned an id.  Over all runs, a written record
    with "job_id" [None] has status "failed" and comes from a run that
    failed before submission returned an id. *)
Theorem submission_failure_short_circuits :
  (forall fuel e w0 w o,
     copy_ok e = true -> load_ok e = true ->
     connect_succeeds e = false \/ create_job e = None \/ start_ok e = false ->
     run_task fuel e w0 = (w, o) ->
     exists d, o = Ok d /\ saved w = (saved w0 ++ [d])%list /\
       npoll w = npoll w0 /\ sleeps w = sleeps w0 /\
       dict_get d "status" = Some (PStr "failed") /\
       (exists msg, dict_get d "error" = Some (PStr msg)) /\
       (connect_succeeds e = false \/ create_job e = None ->
          dict_get d "job_id" = Some PNone) /\
       (forall id, connect_succeeds e = true -> create_job e = Some id ->
          dict_get d "job_id" = Some (PStr id))) /\
  (forall fuel e w0 w d,
     run_task fuel e w0 = (w, Ok d) -> dict_get d "job_id" = Some PNone ->
     dict_get d "status" = Some (PStr "failed") /\
     (load_ok e = false \/ connect_succeeds e = false \/ create_job e = None)).
Proof.
  unfold connect_succeeds. split.
  - intros fuel e w0 w o Hc Hl Hd Hrun.
    env_destruct e. subst.
    run_cases Hrun.
    all: try (match goal with E : (_ =? earth_engine_url) = _ |- _ => rewrite E in Hd end);
         cbn in Hd.
    all: try (destruct Hd as [Hd | [Hd | Hd]]; discriminate Hd).
    all: run_inv Hrun.
    all: eexists; split; [reflexivity | ].
    all: split; [reflexivity | split; [reflexivity | split; [reflexivity | ]]].
    all: split; [reflexivity | split; [eexists; reflexivity | ]].
    all: split; [intros [H|H]; try discriminate H; reflexivity | ].
    all: intros ? H1 H2; try discriminate H1; try discriminate H2.
    all: injection H2 as <-; reflexivity.
  - intros fuel e w0 w d Hrun Hj.
    env_destruct e.
    run_cases Hrun.
    all: run_inv Hrun; cbn in Hj |- *; frame_in Hj; frame_goal.
    all: try (match goal with E : (_ =? earth_engine_url) = _ |- _ => rewrite E end); cbn.
    all: try discriminate Hj.
    all: split; [reflexivity | auto].
    all: left; apply negb_true_iff; assumption.
Qed.

Lemma submission_failure_short_circuits_witness :
  exists w o,
    run_task 722 (mk_env true true true false (Some "j-1") true polls_finish true)
      world0 = (w, o) /\
    exists d, o = Ok d /\ saved w = (saved world0 ++ [d])%list /\
      npoll w = npoll world0 /\ sleeps w = sleeps world0 /\
      dict_get d "status" = Some (PStr "failed") /\
      dict_get d "job_id" = Some PNone.
Proof.
  destruct (run_task 722 (mk_env true true true false (Some "j-1") true polls_finish true)
              world0) as [w o] eqn:E.
  exists w, o. split; [reflexivity | ].
  destruct (proj1 submission_failure_short_circuits 722%nat
              (mk_env true true true false (Some "j-1") true polls_finish true) world0 w o
              eq_refl eq_refl (or_introl eq_refl) E)
    as (d & Ho & Hs & Hn & Hsl & Hst & _ & Hj & _).
  exists d. repeat split; try assumption.
  apply Hj. left. reflexivity.
Defined.

(** C8 (corrected).  For any answers of the backend, including a status
    that is never terminal and checks that always raise, and any durations
    of its status checks (elapsed times, so non-negative, but with no bound),
    the loop that [run_task] starts (no earlier than [job_start_time])
    finishes within 722 iterations.  If moreover every status check takes at
    most [D] seconds, it exits at its entry, or at most
    [timeout + max_poll_interval + D] seconds after [job_start_time]: the
    duration of the last status check comes on top of
    [timeout + max_poll_interval]. *)
Theorem poll_loop_exits_within_bound fuel e jst t w :
  (forall k, 0 <= fst (poll e k)) -> jst <= clock w -> (722 <= fuel)%nat ->
  exists w' ls', poll_loop fuel e jst (loop_init t) w = (w', Ok ls') /\
    forall D, (forall k, fst (poll e k) <= D) ->
      clock w' <= Qmax (clock w) (jst + timeout + max_poll_interval + D).
Proof.
  intros Hnn Hj Hfuel.
  destruct (poll_loop_finishes fuel e jst (loop_init t) w Hnn (loop_init_ok t) Hj Hfuel)
    as (w' & ls' & Hrun).
  exists w', ls'. split; [exact Hrun | ].
  intros D HD.
  assert (Hpoll : forall k, 0 <= fst (poll e k) <= D) by (intro k; split; [apply Hnn | apply HD]).
  destruct (poll_loop_exit_time fuel e D jst (loop_init t) w w' ls' Hpoll
              (loop_init_ok t) Hrun) as [Hb | Hb].
  - rewrite Hb. apply Q.le_max_l.
  - eapply Qle_trans; [ | apply Q.le_max_r]. lra.
Qed.

Lemma poll_loop_exits_within_bound_witness :
  exists w' ls', poll_loop 722 (env_with_polls polls_queued) 0 (loop_init 0) world0
                   = (w', Ok ls') /\
    forall D, (forall k, fst (poll (env_with_polls polls_queued) k) <= D) ->
      clock w' <= Qmax (clock world0) (0 + timeout + max_poll_interval + D).
Proof.
  apply (poll_loop_exits_within_bound 722 (env_with_polls polls_queued) 0 0 world0).
  - intro k. vm_compute. discriminate.
  - vm_compute. discriminate.
  - lia.
Defined.

(** C8 counterexample: a backend that answers "queued" after 40 seconds.
    The loop exits about 3651.9 seconds after [job_start_time], more than
    [timeout + max_poll_interval] = 3630. *)
Lemma poll_loop_exits_within_bound_cex :
  match run_task 722 (env_with_polls (polls_slow 40)) world0 with
  | (_, Ok d) =>
      exists x, dict_get d "job_execution_time" = Some (PNum x) /\
                timeout + max_poll_interval < x
  | _ => False
  end.
Proof. vm_compute. eexists. split; [reflexivity | vm_compute; reflexivity]. Qed.

(** C9 (corrected).  In every record [run_task] writes (the clock never
    runs backwards), "submit_time", "job_execution_time" and
    "download_time", when present, are non-negative and at most
    "total_time", which is then present.  "start_job_time" is no duration:
    it is the absolute time [time.time()] at the job start, no earlier than
    "start_time". *)
Theorem durations_bounded_by_total fuel e w0 w d :
  env_wf e -> run_task fuel e w0 = (w, Ok d) ->
  (forall k x, In k ["submit_time"; "job_execution_time"; "download_time"] ->
     dict_get d k = Some (PNum x) ->
     exists T, dict_get d "total_time" = Some (PNum T) /\ 0 <= x <= T) /\
  (forall s, dict_get d "start_job_time" = Some (PNum s) ->
     exists t0, dict_get d "start_time" = Some (PNum t0) /\ t0 <= s).
Proof.
  intros Hwf Hrun. destruct Hwf as (Hc & Hcr & Hst & Hdl & Hp).
  run_cases Hrun.
  all: run_inv Hrun.
  all: try (match goal with
            | EL : poll_loop _ _ _ _ _ = _ |- _ =>
                pose proof (poll_loop_clock _ _ _ _ _ _ _ Hp (loop_init_ok _) EL)
            end).
  all: split; [intros ? ? [<- | [<- | [<- | []]]] | intros ?];
       cbn; frame_goal; intro Hx; try discriminate Hx; injection Hx as <-;
       eexists; (split; [reflexivity | cbn in *; lra]).
Qed.

Lemma durations_bounded_by_total_witness :
  exists w d, run_task 722 (env_with_polls polls_finish) world0 = (w, Ok d) /\
  (forall k x, In k ["submit_time"; "job_execution_time"; "download_time"] ->
     dict_get d k = Some (PNum x) ->
     exists T, dict_get d "total_time" = Some (PNum T) /\ 0 <= x <= T) /\
  (forall s, dict_get d "start_job_time" = Some (PNum s) ->
     exists t0, dict_get d "start_time" = Some (PNum t0) /\ t0 <= s).
Proof.
  destruct (run_task 722 (env_with_polls polls_finish) world0) as [w o] eqn:E.
  destruct o as [d|ex|]; [ | vm_compute in E; discriminate E .. ].
  exists w, d. split; [reflexivity | ].
  apply (durations_bounded_by_total 722 (env_with_polls polls_finish) world0 w d).
  - apply env_with_polls_wf. intro n. destruct n as [|[|[|n]]]; vm_compute; discriminate.
  - exact E.
Defined.

(** C9 counterexample: the run of [polls_finish] on a clock starting at
    1700000000.  "start_job_time" is 1700000003, more than "total_time"
    (about 44.6). *)
Lemma durations_bounded_by_total_cex :
  match run_task 722 (env_with_polls polls_finish) (world_at 1700000000) with
  | (_, Ok d) =>
      exists s T, dict_get d "start_job_time" = Some (PNum s) /\
                  dict_get d "total_time" = Some (PNum T) /\ T < s
  | _ => False
  end.
Proof.
  vm_compute. eexists _, _. split; [reflexivity | split; [reflexivity | ]].
  vm_compute. reflexivity.
Qed.

(** ** Facts about the other functions of openeotest.py *)

(** *** Grouping *)

Lemma group_get_add {A} (g : list (string * list A)) k v k' :
  group_get (group_add g k v) k' =
  if String.eqb k k' then (group_get g k' ++ [v])%list else group_get g k'.
Proof.
  induction g as [|[k0 l] g IH]; cbn.
  - destruct (String.eqb_spec k k'); reflexivity.
  - destruct (String.eqb_spec k0 k) as [->|Hne]; cbn.
    + destruct (String.eqb_spec k k'); reflexivity.
    + destruct (String.eqb_spec k0 k') as [->|Hne'].
      * destruct (String.eqb_spec k k'); [congruence | reflexivity].
      * exact IH.
Qed.

Lemma group_add_keys {A} (g : list (string * list A)) k v :
  map fst (group_add g k v) =
  if existsb (String.eqb k) (map fst g) then map fst g else (map fst g ++ [k])%list.
Proof.
  induction g as [|[k0 l] g IH]; cbn; [reflexivity | ].
  destruct (String.eqb_spec k0 k) as [->|Hne]; cbn.
  - rewrite String.eqb_refl. reflexivity.
  - rewrite IH. destruct (String.eqb_spec k k0); [congruence | ].
    destruct (existsb (String.eqb k) (map fst g)); reflexivity.
Qed.

Lemma group_add_nodup {A} (g : list (string * list A)) k v :
  NoDup (map fst g) -> NoDup (map fst (group_add g k v)).
Proof.
  intro Hnd. rewrite group_add_keys.
  destruct (existsb (String.eqb k) (map fst g)) eqn:E; [exact Hnd | ].
  apply NoDup_app; [exact Hnd | repeat constructor; intros [] | ].
  intros x Hx [<- | []].
  assert (existsb (String.eqb k) (map fst g) = true) as Ht.
  { apply existsb_exists. exists k. split; [exact Hx | apply String.eqb_refl]. }
  congruence.
Qed.

Lemma group_add_nonempty {A} (g : list (string * list A)) k v :
  (forall k0 l0, In (k0, l0) g -> l0 <> []) ->
  forall k0 l0, In (k0, l0) (group_add g k v) -> l0 <> [].
Proof.
  induction g as [|[k1 l1] g IH]; cbn; intros Hg k0 l0 Hin.
  - destruct Hin as [Heq | []]. injection Heq as _ <-. discriminate.
  - destruct (String.eqb k1 k).
    + destruct Hin as [Heq | Hin].
      * injection Heq as _ <-. destruct l1; discriminate.
      * apply (Hg k0 l0). right. exact Hin.
    + destruct Hin as [Heq | Hin].
      * apply (Hg k0 l0). left. exact Heq.
      * apply (IH (fun k2 l2 H => Hg k2 l2 (or_intror H)) k0 l0 Hin).
Qed.

Lemma group_get_in {A} (g : list (string * list A)) k l :
  NoDup (map fst g) -> In (k, l) g -> group_get g k = l.
Proof.
  induction g as [|[k1 l1] g IH]; cbn; intros Hnd Hin; [contradiction | ].
  inversion Hnd as [|? ? Hnin Hnd']; subst.
  destruct Hin as [Heq | Hin].
  - injection Heq as -> ->. rewrite String.eqb_refl. reflexivity.
  - destruct (String.eqb_spec k1 k) as [->|Hne]; [ | exact (IH Hnd' Hin)].
    exfalso. apply Hnin. change k with (fst (k, l)). apply in_map. exact Hin.
Qed.

(** A fold of [group_add] over a list: what each key holds. *)
Lemma group_fold_get {A B} (key : B -> string) (f : B -> A) (l : list B) g0 k :
  group_get (fold_left (fun g x => group_add g (key x) (f x)) l g0) k =
  (group_get g0 k ++ map f (filter (fun x => String.eqb (key x) k) l))%list.
Proof.
  revert g0. induction l as [|x l IH]; intro g0; cbn.
  - rewrite app_nil_r. reflexivity.
  - rewrite IH, group_get_add.
    destruct (String.eqb (key x) k); cbn; [rewrite <- app_assoc | ]; reflexivity.
Qed.

Lemma group_fold_wf {A B} (key : B -> string) (f : B -> A) (l : list B) g0 :
  NoDup (map fst g0) -> (forall k0 l0, In (k0, l0) g0 -> l0 <> []) ->
  NoDup (map fst (fold_left (fun g x => group_add g (key x) (f x)) l g0)) /\
  (forall k0 l0, In (k0, l0) (fold_left (fun g x => group_add g (key x) (f x)) l g0) ->
     l0 <> []).
Proof.
  revert g0. induction l as [|x l IH]; intros g0 Hnd Hne; cbn; [split; assumption | ].
  apply IH; [apply group_add_nodup, Hnd | apply group_add_nonempty, Hne].
Qed.

(** *** Strings *)

Lemma prefix_empty s : String.prefix EmptyString s = true.
Proof. destruct s; reflexivity. Qed.

Lemma contains1_cons c x r :
  py_contains (String c EmptyString) (String x r) =
  Ascii.eqb c x || py_contains (String c EmptyString) r.
Proof.
  cbn. destruct (ascii_dec c x) as [->|Hne]; cbn.
  - rewrite prefix_empty, Ascii.eqb_refl. reflexivity.
  - destruct (Ascii.eqb_spec c x); [contradiction | reflexivity].
Qed.

Lemma contains1_app c a b :
  py_contains (String c EmptyString) (a ++ b) =
  py_contains (String c EmptyString) a || py_contains (String c EmptyString) b.
Proof.
  induction a as [|x a IH]; [reflexivity | ].
  cbn [append]. rewrite !contains1_cons, IH, orb_assoc. reflexivity.
Qed.

Lemma contains1_substring c n m s :
  py_contains (String c EmptyString) s = false ->
  py_contains (String c EmptyString) (substring n m s) = false.
Proof.
  revert n m. induction s as [|x s IH]; intros n m Hs.
  - destruct n, m; reflexivity.
  - rewrite contains1_cons in Hs. apply orb_false_iff in Hs as [Hx Hs].
    destruct n as [|n]; cbn [substring].
    + destruct m as [|m]; [reflexivity | ].
      rewrite contains1_cons, Hx. cbn.
      replace (substring 0 m s) with (substring 0 m s) by reflexivity.
      apply IH, Hs.
    + apply IH, Hs.
Qed.

Lemma contains1_replace c fuel old new s :
  py_contains (String c EmptyString) s = false ->
  py_contains (String c EmptyString) new = false ->
  py_contains (String c EmptyString) (replace_fuel fuel old new s) = false.
Proof.
  revert s. induction fuel as [|fuel IH]; intros s Hs Hn; cbn [replace_fuel]; [exact Hs | ].
  destruct s as [|x r]; [reflexivity | ].
  destruct (String.prefix old (String x r)).
  - rewrite contains1_app, Hn, orb_false_l.
    apply IH; [apply contains1_substring, Hs | exact Hn].
  - rewrite contains1_cons in *. apply orb_false_iff in Hs as [Hx Hs].
    rewrite Hx. apply IH; assumption.
Qed.

Lemma contains_replace_noop fuel old new s :
  py_contains old s = false -> replace_fuel fuel old new s = s.
Proof.
  revert s. induction fuel as [|fuel IH]; intros s Hs; cbn [replace_fuel]; [reflexivity | ].
  destruct s as [|x r]; [reflexivity | ].
  cbn [py_contains] in Hs. apply orb_false_iff in Hs as [Hp Hr].
  rewrite Hp. f_equal. apply IH, Hr.
Qed.

Lemma basename_no_slash s : py_contains "/" (py_basename s) = false.
Proof.
  induction s as [|x r IH]; [reflexivity | ].
  cbn [py_basename].
  destruct (py_contains "/" r) eqn:Er; [exact IH | ].
  destruct (Ascii.eqb_spec x "/"%char) as [->|Hne]; [exact Er | ].
  rewrite contains1_cons, Er, orb_false_r.
  destruct (Ascii.eqb_spec "/"%char x); [congruence | reflexivity].
Qed.

Lemma basename_after_slash a x :
  py_contains "/" x = false -> py_basename (a ++ String "/" x) = x.
Proof.
  intro Hx. induction a as [|c a IH]; cbn [append py_basename].
  - rewrite Hx, Ascii.eqb_refl. reflexivity.
  - assert (Hc : py_contains "/" (a ++ String "/" x) = true).
    { rewrite contains1_app, contains1_cons, Ascii.eqb_refl, orb_true_r. reflexivity. }
    rewrite Hc. exact IH.
Qed.

Lemma all_digits_no_char c s :
  is_digit c = false -> all_digits s = true ->
  py_contains (String c EmptyString) s = false.
Proof.
  intros Hc. induction s as [|x r IH]; intro Hs; [reflexivity | ].
  cbn [all_digits] in Hs. apply andb_true_iff in Hs as [Hx Hr].
  rewrite contains1_cons, IH by exact Hr.
  destruct (Ascii.eqb_spec c x) as [->|]; [congruence | reflexivity].
Qed.

Lemma split_nonempty c s : exists p ps, py_split_char c s = p :: ps.
Proof.
  induction s as [|x r IH]; cbn; [eauto | ].
  destruct IH as (p & ps & ->). destruct (Ascii.eqb x c); eauto.
Qed.

Lemma split_app c a b :
  py_split_char c (a ++ String c b) = (py_split_char c a ++ py_split_char c b)%list.
Proof.
  induction a as [|x a IH]; cbn.
  - rewrite Ascii.eqb_refl. reflexivity.
  - rewrite IH. destruct (Ascii.eqb x c); [reflexivity | ].
    destruct (split_nonempty c a) as (p & ps & ->). reflexivity.
Qed.

Lemma split_no_char c s :
  py_contains (String c EmptyString) s = false -> py_split_char c s = [s].
Proof.
  induction s as [|x r IH]; intro Hs; [reflexivity | ].
  rewrite contains1_cons in Hs. apply orb_false_iff in Hs as [Hx Hr].
  cbn. rewrite IH by exact Hr.
  destruct (Ascii.eqb_spec x c) as [->|]; [rewrite Ascii.eqb_refl in Hx; discriminate | ].
  reflexivity.
Qed.

Lemma digits_no_underscore ts :
  py_isdigit ts = true -> py_contains "_" ts = false.
Proof.
  intro H. apply all_digits_no_char; [reflexivity | ].
  destruct ts; [discriminate | exact H].
Qed.

Lemma digits_no_slash ts :
  py_isdigit ts = true -> py_contains "/" ts = false.
Proof.
  intro H. apply all_digits_no_char; [reflexivity | ].
  destruct ts; [discriminate | exact H].
Qed.

(** The pieces of a folder name of [run_task]. *)
Lemma run_folder_parts host sp ts :
  py_isdigit ts = true ->
  py_split_char "_" (run_folder_name host sp ts) =
  (py_split_char "_" (backend_name_of host) ++
   py_split_char "_" (scenario_name_of sp) ++ [ts])%list.
Proof.
  intro Hts. unfold run_folder_name.
  change ("_" ++ ?x) with (String "_" x).
  rewrite split_app. f_equal.
  change ("_" ++ ?x) with (String "_" x).
  rewrite split_app, (split_no_char _ ts (digits_no_underscore ts Hts)).
  reflexivity.
Qed.

Lemma run_folder_no_slash host sp ts :
  py_contains "/" host = false -> py_isdigit ts = true ->
  py_contains "/" (run_folder_name host sp ts) = false.
Proof.
  intros Hh Hts. unfold run_folder_name, backend_name_of, scenario_name_of, py_replace.
  rewrite !contains1_app.
  rewrite (contains1_replace _ _ _ _ _ Hh) by reflexivity.
  rewrite (contains1_replace _ _ _ _ _ (basename_no_slash sp)) by reflexivity.
  rewrite (digits_no_slash ts Hts). reflexivity.
Qed.

(** *** Lists of statistics *)

Lemma collect_values_length f fl es :
  (List.length (collect_values f fl es) <= List.length es)%nat.
Proof.
  induction es as [|e es IH]; cbn; [lia | ].
  destruct (dict_get (s_fields e) fl) as [[| | |]|]; cbn;
    try (destruct (f _)); cbn; try lia.
Qed.

Lemma filter_filter {A} (f g : A -> bool) l :
  filter f (filter g l) = filter (fun x => g x && f x) l.
Proof.
  induction l as [|x l IH]; cbn; [reflexivity | ].
  destruct (g x); cbn; [destruct (f x); cbn; rewrite IH | rewrite IH]; reflexivity.
Qed.

Lemma find_index_app (p : string -> bool) P x r i0 :
  forallb (fun y => negb (p y)) P = true -> p x = true ->
  find_index p (P ++ x :: r) i0 = Some (i0 + List.length P)%nat.
Proof.
  revert i0. induction P as [|y P IH]; intros i0 HP Hx; cbn [app find_index].
  - rewrite Hx. cbn. f_equal. lia.
  - cbn [forallb] in HP. apply andb_true_iff in HP as [Hy HP].
    destruct (p y); [discriminate | ].
    rewrite (IH (S i0) HP Hx). cbn [List.length]. f_equal. lia.
Qed.

Lemma nth_app2_0 {A} (L : list A) x y d : nth (List.length L) (L ++ [x; y]) d = x.
Proof. rewrite app_nth2 by lia. replace (List.length L - List.length L)%nat with 0%nat by lia. reflexivity. Qed.

Lemma nth_app2_1 {A} (L : list A) x y d : nth (S (List.length L)) (L ++ [x; y]) d = y.
Proof. rewrite app_nth2 by lia. replace (S (List.length L) - List.length L)%nat with 1%nat by lia. reflexivity. Qed.

Lemma timestamp_matches ts :
  String.length ts = 14%nat -> py_isdigit ts = true -> re_match_14_digits ts = true.
Proof. intros Hl Hd. unfold re_match_14_digits. rewrite Hl, Hd. reflexivity. Qed.

(** The pieces of a run folder name, split around the last piece of the
    scenario name. *)
Lemma run_folder_parts_last host sp ts :
  py_isdigit ts = true ->
  exists L, L <> [] /\
    py_split_char "_" (run_folder_name host sp ts) =
    (L ++ [last (py_split_char "_" (scenario_name_of sp)) ""; ts])%list.
Proof.
  intro Hts. rewrite run_folder_parts by exact Hts.
  destruct (split_nonempty "_" (backend_name_of host)) as (b & bs & ->).
  destruct (exists_last (l := py_split_char "_" (scenario_name_of sp)))
    as (S' & l & ->).
  { destruct (split_nonempty "_" (scenario_name_of sp)) as (p & ps & ->). discriminate. }
  exists (b :: bs ++ S')%list. split; [discriminate | ].
  rewrite last_last. cbn [app]. rewrite <- !app_assoc. reflexivity.
Qed.

Lemma folder_platform_of_parts path L l ts :
  py_split_char "_" (py_basename path) = (L ++ [l; ts])%list -> L <> [] ->
  re_match_14_digits ts = true -> l <> "platform" ->
  fi_platform (folder_info_of path) = l.
Proof.
  intros Hs HL Hts Hl. unfold folder_info_of. rewrite Hs.
  rewrite length_app. cbn [List.length].
  replace (List.length L + 2)%nat with (S (S (List.length L))) by lia.
  assert (H3 : Nat.leb 3 (S (S (List.length L))) = true).
  { apply Nat.leb_le. destruct L; [congruence | cbn; lia]. }
  rewrite H3. cbn [search_down]. rewrite nth_app2_1, Hts.
  assert (H1 : Nat.ltb 1 (S (List.length L)) = true).
  { apply Nat.ltb_lt. destruct L; [congruence | cbn; lia]. }
  rewrite H1.
  replace (S (List.length L) - 1)%nat with (List.length L) by lia.
  rewrite nth_app2_0.
  destruct (String.eqb_spec l "platform") as [|_]; [contradiction | ].
  rewrite andb_false_r.
  destruct (str_in l _); reflexivity.
Qed.

(** X1: [group_folders_by_platform] is a partition of its input by
    platform: its keys are distinct, no group is empty, and the group of a
    platform [k] holds the folder infos of the input folders whose platform
    is [k], in input order. *)
Theorem group_folders_by_platform_partition folders :
  NoDup (map fst (group_folders_by_platform folders)) /\
  (forall k l, In (k, l) (group_folders_by_platform folders) -> l <> []) /\
  (forall k, group_get (group_folders_by_platform folders) k =
     map folder_info_of
       (filter (fun p => String.eqb (fi_platform (folder_info_of p)) k) folders)).
Proof.
  unfold group_folders_by_platform.
  destruct (group_fold_wf (fun p => fi_platform (folder_info_of p)) folder_info_of
              folders [] (NoDup_nil _) (fun _ _ H => False_ind _ H)) as [Hnd Hne].
  split; [exact Hnd | split; [exact Hne | ]].
  intro k. exact (group_fold_get (fun p => fi_platform (folder_info_of p))
                    folder_info_of folders [] k).
Qed.

(** X2: for the default output folder of [run_task] (a host without
    ["/"], a 14-digit timestamp), [group_folders_by_platform] takes as
    platform the last ["_"] piece of the scenario name, whatever the backend,
    unless that piece is ["platform"]. *)
Theorem run_task_folder_platform host sp ts :
  py_contains "/" host = false -> String.length ts = 14%nat -> py_isdigit ts = true ->
  last (py_split_char "_" (scenario_name_of sp)) "" <> "platform" ->
  fi_platform (folder_info_of (default_output_directory host sp ts)) =
  last (py_split_char "_" (scenario_name_of sp)) "".
Proof.
  intros Hh Hlen Hts Hl.
  assert (Hx := run_folder_no_slash host sp ts Hh Hts).
  assert (Hd : default_output_directory host sp ts =
               ("output" ++ String "/" (run_folder_name host sp ts))%string).
  { unfold default_output_directory, py_path_join, py_startswith.
    destruct (run_folder_name host sp ts) as [|c r] eqn:E; [reflexivity | ].
    rewrite contains1_cons in Hx. apply orb_false_iff in Hx as [Hc _].
    cbn [String.prefix]. destruct (ascii_dec "/" c) as [<-|_]; [discriminate | ].
    reflexivity. }
  destruct (run_folder_parts_last host sp ts Hts) as (L & HL & Hs).
  apply (folder_platform_of_parts _ L _ ts); [ | exact HL | | exact Hl].
  - rewrite Hd, basename_after_slash by exact Hx. exact Hs.
  - apply timestamp_matches; assumption.
Qed.

(** X3: for a folder name of [run_task] whose host and scenario pieces
    hold no 14-digit piece, [_extract_backend_from_folder] labels the folder
    by the last ["_"] piece of the scenario name, not by the host. *)
Theorem extract_backend_of_run_folder host sp ts :
  String.length ts = 14%nat -> py_isdigit ts = true ->
  forallb (fun p => negb (is_timestamp_part p))
    (py_split_char "_" (backend_name_of host) ++ py_split_char "_" (scenario_name_of sp))
  = true ->
  extract_backend_from_folder (run_folder_name host sp ts) =
  backend_label (last (py_split_char "_" (scenario_name_of sp)) "").
Proof.
  intros Hlen Hts Hnone. unfold extract_backend_from_folder.
  rewrite run_folder_parts by exact Hts. rewrite app_assoc.
  rewrite find_index_app with (1 := Hnone)
    by (unfold is_timestamp_part; rewrite Hlen, Hts; reflexivity).
  destruct (split_nonempty "_" (backend_name_of host)) as (b & bs & Eb).
  destruct (exists_last (l := py_split_char "_" (scenario_name_of sp)))
    as (S' & l & Es).
  { destruct (split_nonempty "_" (scenario_name_of sp)) as (p & ps & ->). discriminate. }
  rewrite Eb, Es, last_last. cbn [app List.length Nat.add].
  rewrite length_app, length_app. cbn [List.length].
  replace (List.length bs + (List.length S' + 1))%nat
    with (List.length (b :: bs ++ S')) by (cbn [List.length]; rewrite length_app; lia).
  replace (b :: (bs ++ S' ++ [l]) ++ [ts])%list
    with ((b :: bs ++ S') ++ [l; ts])%list by (cbn [app]; rewrite <- !app_assoc; reflexivity).
  rewrite nth_app2_0. reflexivity.
Qed.

(** X4: an output path that ends in [.csv] only in another case and holds
    no lower-case [.csv] anywhere (as [report.CSV]) is written as CSV, and
    its summary path is the path itself: the summary statistics overwrite
    the main CSV file. *)
Theorem summary_csv_overwrites_main_csv p :
  py_endswith ".csv" (py_lower p) = true -> py_contains ".csv" p = false ->
  summary_format p = WriteCsv /\ summary_path p = p.
Proof.
  intros He Hc. unfold summary_format. rewrite He. split; [reflexivity | ].
  apply contains_replace_noop, Hc.
Qed.

Lemma compare_fold_counts cmp names l r :
  let r' := fold_left (compare_one cmp names) l r in
  c_total r' = c_total r /\
  (c_matching r' + c_not_matching r' + c_missing r' =
   c_matching r + c_not_matching r + c_missing r + List.length l)%nat /\
  (List.length (c_reasons r) = c_not_matching r + c_missing r ->
   List.length (c_reasons r') = c_not_matching r' + c_missing r')%nat /\
  (c_missing r' = c_missing r +
     List.length (filter (fun t => match assoc_str names (py_basename t) with
                                   | None => true | Some _ => false end) l))%nat.
Proof.
  revert r. induction l as [|t l IH]; intro r; cbn [fold_left List.length filter].
  - repeat split; [lia | tauto | lia].
  - destruct (IH (compare_one cmp names r t)) as (H1 & H2 & H3 & H4).
    unfold compare_one in *.
    destruct (assoc_str names (py_basename t)) as [comp|];
      [destruct (cmp t comp) as [[|] reason] | ]; cbn in H1, H2, H3, H4 |- *;
      repeat split; try lia;
      intro HR; apply H3; rewrite ?length_app; cbn [List.length]; lia.
Qed.

(** X5: in the results of [compare_task] for one platform, [total] is the
    number of reference files and [matching + not_matching + missing =
    total]; the [reasons] are one line when there is no comparison folder,
    else one line per non-matching or missing file. *)
Theorem compare_platform_counts gtf cmp ref comps platform scenario :
  let r := compare_platform gtf cmp ref comps platform scenario in
  c_total r = List.length (gtf ref) /\
  (c_matching r + c_not_matching r + c_missing r = c_total r)%nat /\
  List.length (c_reasons r) =
    match comps with [] => 1%nat | _ => (c_not_matching r + c_missing r)%nat end.
Proof.
  cbv zeta. unfold compare_platform. destruct comps as [|comp comps].
  - cbn. repeat split; lia.
  - destruct (compare_fold_counts cmp (tiff_names (gtf comp)) (gtf ref)
      {| c_total := List.length (gtf ref); c_matching := 0; c_not_matching := 0;
         c_missing := 0; c_reasons := [] |}) as (H1 & H2 & H3 & _).
    cbn in H1, H2, H3. repeat split; [exact H1 | lia | apply H3; reflexivity].
Qed.

Lemma tiff_names_none l d k :
  assoc_str (fold_left (fun d t => (py_basename t, t) :: d) l d) k = None <->
  assoc_str d k = None /\ str_in k (map py_basename l) = false.
Proof.
  revert d. induction l as [|t l IH]; intro d; cbn [fold_left map].
  - unfold str_in. cbn. tauto.
  - rewrite IH. cbn [assoc_str]. unfold str_in. cbn [existsb].
    rewrite String.eqb_sym.
    destruct (String.eqb k (py_basename t)); cbn; [split; [intros [? _]; discriminate | intros [_ ?]; discriminate] | tauto].
Qed.

(** X6: with a comparison folder, [missing] counts the reference files
    whose basename is the basename of no file of the first comparison
    folder. *)
Theorem compare_platform_missing gtf cmp ref comp comps platform scenario :
  c_missing (compare_platform gtf cmp ref (comp :: comps) platform scenario) =
  List.length
    (filter (fun t => negb (str_in (py_basename t) (map py_basename (gtf comp))))
       (gtf ref)).
Proof.
  unfold compare_platform.
  destruct (compare_fold_counts cmp (tiff_names (gtf comp)) (gtf ref)
      {| c_total := List.length (gtf ref); c_matching := 0; c_not_matching := 0;
         c_missing := 0; c_reasons := [] |}) as (_ & _ & _ & H4).
  rewrite H4. cbn [c_missing Nat.add]. f_equal. apply filter_ext. intro t.
  unfold tiff_names.
  destruct (assoc_str _ (py_basename t)) eqn:E.
  - destruct (str_in (py_basename t) (map py_basename (gtf comp))) eqn:E'; [reflexivity | ].
    exfalso. assert (Hn : assoc_str (fold_left (fun d t => (py_basename t, t) :: d) (gtf comp) []) (py_basename t) = None)
      by (apply tiff_names_none; split; [reflexivity | exact E']).
    congruence.
  - apply tiff_names_none in E as [_ ->]. reflexivity.
Qed.

(** X7: every row of the summary statistics of [_write_summary_csv] has
    [n >= 1], and [n] is at most the number of entries of its backend whose
    [tiff_count] is positive. *)
Theorem summary_stats_row_counts f data r :
  In r (summary_stats f data) ->
  (1 <= sr_n r <=
   List.length (filter (fun e => tiff_positive f e && String.eqb (s_backend e) (sr_backend r))
                  data))%nat.
Proof.
  unfold summary_stats. destruct (filter (tiff_positive f) data) as [|e0 rest] eqn:Ef;
    [intros [] | ].
  intro Hin. apply in_flat_map in Hin as ([b es] & Hg & Hr).
  apply in_flat_map in Hr as (field & _ & Hr).
  destruct (group_fold_wf s_backend (fun e => e) (e0 :: rest) [] (NoDup_nil _)
              (fun _ _ H => False_ind _ H)) as [Hnd _].
  assert (Hes := group_get_in _ _ _ Hnd Hg).
  rewrite (group_fold_get s_backend (fun e => e)) in Hes. cbn [group_get app] in Hes.
  rewrite map_id, <- Ef, filter_filter in Hes.
  unfold stat_row_of in Hr.
  pose proof (collect_values_length f field es) as Hlen.
  destruct (collect_values f field es) as [|x xs]; [destruct Hr | ].
  destruct Hr as [<- | []]. cbn [sr_n sr_backend]. rewrite <- Hes in Hlen.
  cbn [List.length] in Hlen |- *. lia.
Qed.

(** X8: [connect_to_backend] on a backend without ["name"] or without
    ["url"] raises [KeyError], from its [except] handler when the connection
    itself succeeded or failed. *)
Theorem connect_to_backend_missing_key ce backend :
  dict_get backend "name" = None \/ dict_get backend "url" = None ->
  connect_to_backend ce backend = Raise (Exn "KeyError").
Proof.
  intro H. unfold connect_to_backend. destruct H as [Hn | Hu].
  - rewrite Hn. destruct (dict_get backend "url") as [url|]; [ | reflexivity].
    destruct (pyeq_str url earth_engine_url);
      [destruct (connect_ok_at ce (PStr earth_engine_url)); [destruct (ee_basic_ok ce) | ]
      | destruct (connect_ok_at ce url)]; reflexivity.
  - rewrite Hu. destruct (dict_get backend "name"); reflexivity.
Qed.

(** X9: [connect_to_backend] on a backend with ["name"] and ["url"] never
    raises: it returns the connection when [openeo.connect] (and, for Earth
    Engine, the basic authentication) succeeds, else [None]. *)
Theorem connect_to_backend_no_raise ce backend name url :
  dict_get backend "name" = Some name -> dict_get backend "url" = Some url ->
  connect_to_backend ce backend =
  if pyeq_str url earth_engine_url then
    if connect_ok_at ce (PStr earth_engine_url) && ee_basic_ok ce
    then Ok (Some (PStr earth_engine_url)) else Ok None
  else if connect_ok_at ce url then Ok (Some url) else Ok None.
Proof.
  intros Hn Hu. unfold connect_to_backend. rewrite Hn, Hu.
  destruct (pyeq_str url earth_engine_url);
    [destruct (connect_ok_at ce (PStr earth_engine_url)); [destruct (ee_basic_ok ce) | ]
    | destruct (connect_ok_at ce url)]; reflexivity.
Qed.

(** *** Witnesses of the facts with hypotheses *)

Lemma run_task_folder_platform_witness :
  fi_platform (folder_info_of
    (default_output_directory "openeo.vito.be" "scenarios/ndvi_vito.json" "20250101120000")) =
  last (py_split_char "_" (scenario_name_of "scenarios/ndvi_vito.json")) "".
Proof.
  apply run_task_folder_platform; [vm_compute; reflexivity .. | vm_compute; discriminate].
Defined.

Lemma extract_backend_of_run_folder_witness :
  extract_backend_from_folder (run_folder_name "openeo.vito.be" "scenarios/ndvi.json" "20250101120000") =
  backend_label (last (py_split_char "_" (scenario_name_of "scenarios/ndvi.json")) "").
Proof. apply extract_backend_of_run_folder; vm_compute; reflexivity. Defined.

Lemma summary_csv_overwrites_main_csv_witness :
  summary_format "report.CSV" = WriteCsv /\ summary_path "report.CSV" = "report.CSV".
Proof. apply summary_csv_overwrites_main_csv; vm_compute; reflexivity. Defined.

Lemma summary_stats_row_counts_witness :
  let data :=
    [{| s_folder := "output/a"; s_backend := "VITO";
        s_fields := [("tiff_count [files]", PNum 2); ("total_time [s]", PNum 10)] |};
     {| s_folder := "output/b"; s_backend := "VITO";
        s_fields := [("tiff_count [files]", PNum 0); ("total_time [s]", PNum 30)] |}] in
  let r := {| sr_backend := "VITO"; sr_metric := "total_time [s]"; sr_n := 1;
              sr_min := 10; sr_max := 10; sr_average := 10 |} in
  (1 <= sr_n r <=
   List.length (filter (fun e => tiff_positive (fun _ => None) e &&
                                 String.eqb (s_backend e) (sr_backend r)) data))%nat.
Proof.
  intros data r. apply (summary_stats_row_counts (fun _ => None) data r).
  vm_compute. right. left. reflexivity.
Defined.

Lemma connect_to_backend_missing_key_witness :
  connect_to_backend {| connect_ok_at := fun _ => true; ee_basic_ok := true |}
    [("url", PStr "https://openeo.vito.be")] = Raise (Exn "KeyError").
Proof. apply connect_to_backend_missing_key. left. reflexivity. Defined.

Lemma connect_to_backend_no_raise_witness :
  connect_to_backend {| connect_ok_at := fun _ => true; ee_basic_ok := false |}
    [("name", PStr "Earth Engine"); ("url", PStr earth_engine_url)] =
  if pyeq_str (PStr earth_engine_url) earth_engine_url then
    if connect_ok_at {| connect_ok_at := fun _ => true; ee_basic_ok := false |}
         (PStr earth_engine_url) &&
       ee_basic_ok {| connect_ok_at := fun _ => true; ee_basic_ok := false |}
    then Ok (Some (PStr earth_engine_url)) else Ok None
  else if connect_ok_at {| connect_ok_at := fun _ => true; ee_basic_ok := false |}
            (PStr earth_engine_url)
  then Ok (Some (PStr earth_engine_url)) else Ok None.
Proof. apply (connect_to_backend_no_raise _ _ (PStr "Earth Engine")); reflexivity. Defined.
